(** * LocalAI text-embedding client and Minimax tokenizer accessor

    A shallow embedding of

      - [api/core/model_runtime/model_providers/localai/text_embedding/text_embedding.py]
        (class [LocalAITextEmbeddingModel]) and
      - [api/core/model_runtime/model_providers/minimax/tokenizer.py]
        (class [MinimaxTokenizer]),

    together with the properties of the two that the specification states.

    Python values are an inductive type, exceptions are values of a result
    type, and the one effect of [_invoke], the HTTP request, is recorded in a
    log that every computation carries.  The module global of the tokenizer
    accessor is a field of an explicit process state.

    What the two modules import is not defined here: the network, the JSON
    codec, the price lookup of the base class, the [__str__] of the Invoke
    errors, the validation of the usage entity, the clock and the tokenizer
    library are fields of a [Runtime] or variables of a section, and every
    property holds for all of them.  [os.path] is the POSIX one, a [str] is a
    [string] and its characters are the [ascii] of it, and a [float] is a
    binary64 number of the kernel. *)

From Stdlib Require Import ZArith String Ascii List Bool Lia.
From Stdlib Require Import Floats.PrimFloat.
From stdpp Require Import base option list strings gmap.

Set Warnings "-register-all,-inexact-float".
Open Scope string_scope.
Open Scope Z_scope.

(** ** Python values, exceptions and the library functions the code calls *)

Module Python.

(** The values the code handles dynamically: what [json()] returns and what a
    credentials dict holds.  A dict keeps its keys in insertion order. *)
Inductive pyval : Type :=
| PyNone
| PyBool (b : bool)
| PyInt (z : Z)
| PyFloat (f : float)
| PyStr (s : string)
| PyList (l : list pyval)
| PyDict (kvs : list (string * pyval)).

(** The exception classes of the two modules, the built-in ones the
    interpreter raises on the operations used, and any other class by name
    (what [requests.post] or the price lookup may raise). *)
Inductive exc_class : Type :=
| InvokeError
| InvokeConnectionError
| InvokeServerUnavailableError
| InvokeRateLimitError
| InvokeAuthorizationError
| InvokeBadRequestError
| CredentialsValidateFailedError
| KeyError
| TypeError
| ValueError
| OverflowError
| IndexError
| JSONDecodeError
| OtherException (name : string).

(** An exception object: [Exc C v] is [C(v)], [ExcFrom C e] is [C(e)] for a
    caught exception [e], and [ExcRuntime C] is a [C] raised by the
    interpreter, whose message text is not modelled. *)
Inductive exc : Type :=
| Exc (c : exc_class) (arg : pyval)
| ExcFrom (c : exc_class) (cause : exc)
| ExcRuntime (c : exc_class).

Definition exc_class_of (e : exc) : exc_class :=
  match e with
  | Exc c _ => c
  | ExcFrom c _ => c
  | ExcRuntime c => c
  end.

Definition exc_class_eqb (a b : exc_class) : bool :=
  match a, b with
  | InvokeError, InvokeError => true
  | InvokeConnectionError, InvokeConnectionError => true
  | InvokeServerUnavailableError, InvokeServerUnavailableError => true
  | InvokeRateLimitError, InvokeRateLimitError => true
  | InvokeAuthorizationError, InvokeAuthorizationError => true
  | InvokeBadRequestError, InvokeBadRequestError => true
  | CredentialsValidateFailedError, CredentialsValidateFailedError => true
  | KeyError, KeyError => true
  | TypeError, TypeError => true
  | ValueError, ValueError => true
  | OverflowError, OverflowError => true
  | IndexError, IndexError => true
  | JSONDecodeError, JSONDecodeError => true
  | OtherException n, OtherException m => String.eqb n m
  | _, _ => false
  end.

(** [isinstance(e, C)] for the classes an [except] clause of the code names:
    none of them has a subclass among the classes above. *)
Definition isinstance (e : exc) (c : exc_class) : bool :=
  exc_class_eqb (exc_class_of e) c.

(** The outcome of an expression: a value or a raised exception. *)
Inductive result (A : Type) : Type :=
| Ok (a : A)
| Raise (e : exc).
Arguments Ok {A} a.
Arguments Raise {A} e.

(** [not v] is [negb (truthy v)]. *)
Definition truthy (v : pyval) : bool :=
  match v with
  | PyNone => false
  | PyBool b => b
  | PyInt z => negb (z =? 0)
  | PyFloat f => negb (PrimFloat.eqb f 0%float)
  | PyStr s => negb (String.eqb s EmptyString)
  | PyList l => match l with [] => false | _ => true end
  | PyDict kvs => match kvs with [] => false | _ => true end
  end.

Fixpoint assoc (k : string) (kvs : list (string * pyval)) : option pyval :=
  match kvs with
  | [] => None
  | (k', v) :: rest => if String.eqb k k' then Some v else assoc k rest
  end.

(** [v[k]] for a string key [k]. *)
Definition getitem (v : pyval) (k : string) : result pyval :=
  match v with
  | PyDict kvs =>
      match assoc k kvs with
      | Some x => Ok x
      | None => Raise (Exc KeyError (PyStr k))
      end
  | _ => Raise (ExcRuntime TypeError)
  end.

(** The elements a [for] over [v] visits: the items of a list, the keys of a
    dict, the characters of a string. *)
Definition iter (v : pyval) : result (list pyval) :=
  match v with
  | PyList l => Ok l
  | PyDict kvs => Ok (map (fun kv => PyStr (fst kv)) kvs)
  | PyStr s => Ok (map (fun c => PyStr (String c EmptyString)) (list_ascii_of_string s))
  | _ => Raise (ExcRuntime TypeError)
  end.

(** [v == 500]: numbers compare by value across int, float and bool; a value
    of any other type is not equal to a number. *)
Definition eq_500 (v : pyval) : bool :=
  match v with
  | PyInt z => z =? 500
  | PyFloat f => PrimFloat.eqb f 500%float
  | PyBool b => (if b then 1 else 0) =? 500
  | _ => false
  end.

(** [os.path.join(a, b)] (posixpath) on two strings. *)
Definition ends_with_slash (a : string) : bool :=
  match rev (list_ascii_of_string a) with
  | c :: _ => Ascii.eqb c "/"%char
  | [] => false
  end.

Definition starts_with_slash (b : string) : bool :=
  match b with
  | String c _ => Ascii.eqb c "/"%char
  | EmptyString => false
  end.

Definition posix_join (a b : string) : string :=
  if starts_with_slash b then b
  else if String.eqb a EmptyString || ends_with_slash a then a +:+ b
  else a +:+ "/" +:+ b.

(** [os.path.join(a, *p)]: the loop of posixpath over the components. *)
Definition posix_join_all (a : string) (p : list string) : string :=
  fold_left posix_join p a.

Definition is_slash (c : ascii) : bool := Ascii.eqb c "/"%char.

Fixpoint dropwhile {A : Type} (f : A -> bool) (l : list A) : list A :=
  match l with
  | [] => []
  | x :: rest => if f x then dropwhile f rest else l
  end.

(** [os.path.dirname(p)] (posixpath): the part up to the last slash, its
    trailing slashes removed unless it consists of slashes only. *)
Definition posix_dirname (p : string) : string :=
  let head := rev (dropwhile (fun c => negb (is_slash c)) (rev (list_ascii_of_string p))) in
  if forallb is_slash head
  then string_of_list_ascii head
  else string_of_list_ascii (rev (dropwhile is_slash (rev head))).

(** [os.path.join(v, b)] where [v] is any value: only a string is a path. *)
Definition path_join (v : pyval) (b : string) : result string :=
  match v with
  | PyStr a => Ok (posix_join a b)
  | _ => Raise (ExcRuntime TypeError)
  end.

End Python.

(** ** The embedding client: [LocalAITextEmbeddingModel] *)

Module LocalAI.
Import Python.

(** What [requests.post] is called with, and the part of its response the
    code reads. *)
Inductive http_method : Type := POST.

Record http_request : Type := {
  method : http_method;
  url : string;
  headers : list (string * string);
  data : string;
  timeout : Z
}.

Record Response : Type := {
  status_code : Z;
  text : string
}.

Inductive PriceType : Type := INPUT | OUTPUT.

Module PriceInfo.
Record t (Decimal : Type) : Type := {
  unit_price : Decimal;
  unit : Decimal;
  total_amount : Decimal;
  currency : string
}.
Arguments unit_price {Decimal} _.
Arguments unit {Decimal} _.
Arguments total_amount {Decimal} _.
Arguments currency {Decimal} _.
End PriceInfo.

Module EmbeddingUsage.
Record t (Decimal : Type) : Type := {
  tokens : pyval;
  total_tokens : pyval;
  unit_price : Decimal;
  price_unit : Decimal;
  total_price : Decimal;
  currency : string;
  latency : float
}.
Arguments tokens {Decimal} _.
Arguments total_tokens {Decimal} _.
Arguments unit_price {Decimal} _.
Arguments price_unit {Decimal} _.
Arguments total_price {Decimal} _.
Arguments currency {Decimal} _.
Arguments latency {Decimal} _.
End EmbeddingUsage.

Module TextEmbeddingResult.
Record t (Decimal : Type) : Type := {
  model : string;
  embeddings : list (list float);
  usage : EmbeddingUsage.t Decimal
}.
Arguments model {Decimal} _.
Arguments embeddings {Decimal} _.
Arguments usage {Decimal} _.
End TextEmbeddingResult.

(** What the module imports or inherits and this development does not
    define: the network, the JSON codec, [str] and [float] of the
    interpreter, the price lookup of the base class and the clock. *)
Class Runtime : Type := {
  (** [decimal.Decimal], the type of prices *)
  Decimal : Type;
  (** [requests.post(url, headers=, data=, timeout=)]: a response, or the
      exception the transport raises *)
  post : string -> list (string * string) -> string -> Z -> result Response;
  (** [Response.json()] as a function of the body text: the decoded value,
      or the message of the [JSONDecodeError] *)
  response_json : string -> string + pyval;
  (** [json.dumps] *)
  dumps : pyval -> string;
  (** [str(e)], as an f-string formats an exception of the interpreter or
      of a library *)
  str_of_exc : exc -> string;
  (** [str(e)] for an instance of [InvokeError], whose [__str__] is declared
      in [core/model_runtime/errors/invoke.py]: the text, or the exception
      [str] raises *)
  str_of_invoke_error : exc -> result string;
  (** what the constructor of [EmbeddingUsage], declared in
      [core/model_runtime/entities/text_embedding_entities.py], makes of a
      value that is no [int] given for an [int] field: the integer it
      converts it to, or the validation error *)
  int_field : pyval -> result Z;
  (** [float(n)] for an int; [None] is [OverflowError] *)
  float_of_int : Z -> option float;
  (** [float(s)] for a str; [None] is [ValueError] *)
  float_of_str : string -> option float;
  (** [self.get_price(model=, credentials=, price_type=, tokens=)] *)
  get_price : string -> gmap string pyval -> PriceType -> pyval ->
              result (PriceInfo.t Decimal);
  (** [time.perf_counter()] when the usage is computed *)
  perf_counter : float;
  (** [self.started_at] *)
  started_at : float
}.

(** A computation: the requests sent, in order, and the outcome. *)
Definition M (A : Type) : Type := list http_request * result A.

Definition ret {A : Type} (a : A) : M A := ([], Ok a).

Definition raise {A : Type} (e : exc) : M A := ([], Raise e).

Definition lift {A : Type} (r : result A) : M A := ([], r).

Definition bind {A B : Type} (m : M A) (k : A -> M B) : M B :=
  match m with
  | (log, Ok a) => let (log', r) := k a in ((log ++ log')%list, r)
  | (log, Raise e) => (log, Raise e)
  end.

(** [try: m  except ...: ...]: [handler e] is the body of the first clause
    that matches [e], or [None] when no clause does and [e] propagates. *)
Definition try_except {A : Type} (m : M A) (handler : exc -> option (M A)) : M A :=
  match m with
  | (log, Ok a) => (log, Ok a)
  | (log, Raise e) =>
      match handler e with
      | Some h => let (log', r) := h in ((log ++ log')%list, r)
      | None => (log, Raise e)
      end
  end.

Notation "x <- m ;; k" := (bind m (fun x => k))
  (at level 100, m at next level, right associativity).

(** A comprehension [[f(x) for x in l]] whose body may raise. *)
Fixpoint mapM {A B : Type} (f : A -> M B) (l : list A) : M (list B) :=
  match l with
  | [] => ret []
  | x :: rest => y <- f x ;; ys <- mapM f rest ;; ret (y :: ys)
  end.

Definition requests_sent {A : Type} (m : M A) : list http_request := fst m.

Definition outcome {A : Type} (m : M A) : result A := snd m.

(** A computation is quiet when it sends no request. *)
Definition quiet {A : Type} (m : M A) : Prop := requests_sent m = [].

(** [credentials[k]] *)
Definition dict_getitem (d : gmap string pyval) (k : string) : result pyval :=
  match d !! k with
  | Some v => Ok v
  | None => Raise (Exc KeyError (PyStr k))
  end.

(** [texts[0]] *)
Definition list_getitem_0 (l : list string) : result string :=
  match l with
  | t :: _ => Ok t
  | [] => Raise (ExcRuntime IndexError)
  end.

Section Client.
Context {rt : Runtime}.

(** The call of [post], logged. *)
Definition call_post (target : string) (hs : list (string * string))
    (body : string) (tmo : Z) : M Response :=
  ([{| method := POST; url := target; headers := hs; data := body; timeout := tmo |}],
   post target hs body tmo).

(** [response.json()] *)
Definition json (response : Response) : result pyval :=
  match response_json (text response) with
  | inl msg => Raise (Exc JSONDecodeError (PyStr msg))
  | inr v => Ok v
  end.

(** [float(v)] *)
Definition py_float (v : pyval) : result float :=
  match v with
  | PyFloat f => Ok f
  | PyInt z =>
      match float_of_int z with
      | Some f => Ok f
      | None => Raise (ExcRuntime OverflowError)
      end
  | PyBool b => Ok (if b then 1%float else 0%float)
  | PyStr s =>
      match float_of_str s with
      | Some f => Ok f
      | None => Raise (ExcRuntime ValueError)
      end
  | _ => Raise (ExcRuntime TypeError)
  end.

(** The message of lines 75 and 82. *)
Definition json_failure_message (e : exc) (response : Response) : string :=
  "Failed to convert response to json: " +:+ str_of_exc e +:+
  " with text: " +:+ text response.

(** The value of an [int] field of [EmbeddingUsage] given [v]: an [int] is
    kept as it is. *)
Definition as_int (v : pyval) : result Z :=
  match v with
  | PyInt z => Ok z
  | _ => int_field v
  end.

Definition _calc_response_usage (model : string) (credentials : gmap string pyval)
    (tokens : pyval) : M (EmbeddingUsage.t Decimal) :=
  input_price_info <- lift (get_price model credentials INPUT tokens) ;;
  count <- lift (as_int tokens) ;;
  ret {| EmbeddingUsage.tokens := PyInt count;
         EmbeddingUsage.total_tokens := PyInt count;
         EmbeddingUsage.unit_price := PriceInfo.unit_price input_price_info;
         EmbeddingUsage.price_unit := PriceInfo.unit input_price_info;
         EmbeddingUsage.total_price := PriceInfo.total_amount input_price_info;
         EmbeddingUsage.currency := PriceInfo.currency input_price_info;
         EmbeddingUsage.latency := PrimFloat.sub perf_counter started_at |}.

(** The body of the [if response.status_code != 200] block: every path
    through it raises. *)
Definition error_response (response : Response) : M unit :=
  try_except
    (resp <- lift (json response) ;;
     error <- lift (getitem resp "error") ;;
     code <- lift (getitem error "code") ;;
     error' <- lift (getitem resp "error") ;;
     msg <- lift (getitem error' "message") ;;
     if eq_500 code then raise (Exc InvokeServerUnavailableError msg)
     else if status_code response =? 401 then raise (Exc InvokeAuthorizationError msg)
     else if status_code response =? 429 then raise (Exc InvokeRateLimitError msg)
     else if status_code response =? 500 then raise (Exc InvokeServerUnavailableError msg)
     else raise (Exc InvokeError msg))
    (fun e =>
       if isinstance e JSONDecodeError
       then Some (raise (Exc InvokeServerUnavailableError
                           (PyStr (json_failure_message e response))))
       else None).

(** Lines 77-82: the decoded [data] and [usage] of a response. *)
Definition read_body (response : Response) : M (pyval * pyval) :=
  try_except
    (resp <- lift (json response) ;;
     embeddings <- lift (getitem resp "data") ;;
     usage <- lift (getitem resp "usage") ;;
     ret (embeddings, usage))
    (fun e =>
       Some (raise (Exc InvokeServerUnavailableError
                      (PyStr (json_failure_message e response))))).

(** The comprehension of lines 88-90. *)
Definition embedding_vectors (embeddings : pyval) : M (list (list float)) :=
  xs <- lift (iter embeddings) ;;
  mapM (fun x =>
          embedding <- lift (getitem x "embedding") ;;
          items <- lift (iter embedding) ;;
          mapM (fun item => lift (py_float item)) items)
       xs.

(** Lines 58-94: from the response to the result. *)
Definition interpret_response (model : string) (credentials : gmap string pyval)
    (response : Response) : M (TextEmbeddingResult.t Decimal) :=
  _ <- (if negb (status_code response =? 200)
        then error_response response
        else ret tt) ;;
  body <- read_body response ;;
  let embeddings := fst body in
  let usage := snd body in
  tokens <- lift (getitem usage "total_tokens") ;;
  usage <- _calc_response_usage model credentials tokens ;;
  vectors <- embedding_vectors embeddings ;;
  ret {| TextEmbeddingResult.model := model;
         TextEmbeddingResult.embeddings := vectors;
         TextEmbeddingResult.usage := usage |}.

(** The headers and the payload of lines 43-51. *)
Definition request_headers : list (string * string) :=
  [("Authorization", "Bearer 123"); ("Content-Type", "application/json")].

Definition request_data (model_name input : string) : pyval :=
  PyDict [("model", PyStr model_name); ("input", PyStr input)].

Definition _invoke (model : string) (credentials : gmap string pyval)
    (texts : list string) : M (TextEmbeddingResult.t Decimal) :=
  if negb (Nat.eqb (length texts) 1)
  then raise (Exc InvokeBadRequestError (PyStr "Only one text is supported"))
  else
    server_url <- lift (dict_getitem credentials "server_url") ;;
    let model_name := model in
    if negb (truthy server_url)
    then raise (Exc CredentialsValidateFailedError (PyStr "server_url is required"))
    else if negb (truthy (PyStr model_name))
    then raise (Exc CredentialsValidateFailedError (PyStr "model_name is required"))
    else
      let url := server_url in
      let headers := request_headers in
      input <- lift (list_getitem_0 texts) ;;
      let data := request_data model_name input in
      response <- try_except
                    (target <- lift (path_join url "embeddings") ;;
                     call_post target headers (dumps data) 10)
                    (fun e => Some (raise (ExcFrom InvokeConnectionError e))) ;;
      interpret_response model credentials response.

(** The server's answer to the request for [input] that [_invoke] sends to
    [server_url]. *)
Definition server_answers (server_url model input : string) (response : Response)
    : Prop :=
  post (posix_join server_url "embeddings") request_headers
       (dumps (request_data model input)) 10 = Ok response.

Definition validate_credentials (model : string) (credentials : gmap string pyval)
    : M unit :=
  try_except
    (_ <- _invoke model credentials ["ping"] ;; ret tt)
    (fun e =>
       if isinstance e InvokeAuthorizationError
       then Some (raise (Exc CredentialsValidateFailedError (PyStr "Invalid credentials")))
       else if isinstance e InvokeConnectionError
       then Some (text <- lift (str_of_invoke_error e) ;;
                  raise (Exc CredentialsValidateFailedError
                           (PyStr ("Invalid credentials: " +:+ text))))
       else None).

End Client.

(** The table the framework reads to wrap what [_invoke] raises. *)
Definition _invoke_error_mapping : list (exc_class * list exc_class) :=
  [ (InvokeConnectionError, [InvokeConnectionError]);
    (InvokeServerUnavailableError, [InvokeServerUnavailableError]);
    (InvokeRateLimitError, [InvokeRateLimitError]);
    (InvokeAuthorizationError, [InvokeAuthorizationError]);
    (InvokeBadRequestError, [KeyError]) ].

End LocalAI.

(** ** The tokenizer accessor: [MinimaxTokenizer] *)

Module Minimax.
Import Python.

Section Tokenizer.

(** Tokenizer objects of [transformers]; a value of the type stands for one
    object, so equal values are the same instance. *)
Variable GPT2Tokenizer : Type.

(** [GPT2Tokenizer.from_pretrained(path)]: what the call gives when [n]
    calls were made before it in this process. *)
Variable from_pretrained : string -> nat -> result GPT2Tokenizer.

(** [tokenizer.encode(text)] *)
Variable encode : GPT2Tokenizer -> string -> list Z.

(** [abspath(__file__)] *)
Variable module_file : string.

(** The state of the process: the module global [tokenizer] ([None] at
    import), and the paths [from_pretrained] was called with, oldest first. *)
Record process : Type := {
  tokenizer : option GPT2Tokenizer;
  loaded : list string
}.

Definition at_import : process := {| tokenizer := None; loaded := [] |}.

Definition get_encoder (p : process) : result GPT2Tokenizer * process :=
  match tokenizer p with
  | None =>
      let base_path := module_file in
      let gpt2_tokenizer_path :=
        posix_join_all (posix_dirname base_path) [".."; "__base"; "tokenizers"; "gpt2"] in
      match from_pretrained gpt2_tokenizer_path (length (loaded p)) with
      | Ok t =>
          (Ok t, {| tokenizer := Some t;
                    loaded := (loaded p ++ [gpt2_tokenizer_path])%list |})
      | Raise e =>
          (Raise e, {| tokenizer := None;
                       loaded := (loaded p ++ [gpt2_tokenizer_path])%list |})
      end
  | Some t => (Ok t, p)
  end.

Definition _get_num_tokens_by_gpt2 (text : string) (p : process) : result Z * process :=
  match get_encoder p with
  | (Ok tokenizer, p') =>
      let tokens := encode tokenizer text in
      (Ok (Z.of_nat (length tokens)), p')
  | (Raise e, p') => (Raise e, p')
  end.

Definition get_num_tokens (text : string) (p : process) : result Z * process :=
  _get_num_tokens_by_gpt2 text p.

(** [k] successive calls of [get_encoder]: the outcomes in order and the
    state after the last one. *)
Fixpoint get_encoder_times (k : nat) (p : process)
    : list (result GPT2Tokenizer) * process :=
  match k with
  | O => ([], p)
  | S k' =>
      let (r, p') := get_encoder p in
      let (rs, p'') := get_encoder_times k' p' in
      (r :: rs, p'')
  end.

End Tokenizer.

Arguments tokenizer {GPT2Tokenizer} _.
Arguments loaded {GPT2Tokenizer} _.
Arguments at_import {GPT2Tokenizer}.

End Minimax.

(** ** Concrete runtimes

    A server that answers every request with one fixed response, a decoder
    given by the table of the bodies in use, and a price lookup without
    pricing configured.  The properties below are instantiated on them. *)

Module Scenario.
Import Python LocalAI.

Definition dq : string := String (ascii_of_nat 34) EmptyString.

(** [s] between double quotes. *)
Definition q (s : string) : string := dq +:+ s +:+ dq.

(** [{"data":[{"embedding":[0.1,0.2]}],"usage":{"total_tokens":5}}] *)
Definition body_one_vector : string :=
  "{" +:+ q "data" +:+ ":[{" +:+ q "embedding" +:+ ":[0.1,0.2]}]," +:+
  q "usage" +:+ ":{" +:+ q "total_tokens" +:+ ":5}}".

Definition value_one_vector : pyval :=
  PyDict [("data", PyList [PyDict [("embedding", PyList [PyFloat 0.1; PyFloat 0.2])]]);
          ("usage", PyDict [("total_tokens", PyInt 5)])].

(** [{"data":[{"embedding":[0.1,0.2]},{"embedding":[0.5]}],"usage":{"total_tokens":5}}] *)
Definition body_two_vectors : string :=
  "{" +:+ q "data" +:+ ":[{" +:+ q "embedding" +:+ ":[0.1,0.2]},{" +:+
  q "embedding" +:+ ":[0.5]}]," +:+
  q "usage" +:+ ":{" +:+ q "total_tokens" +:+ ":5}}".

Definition value_two_vectors : pyval :=
  PyDict [("data", PyList [PyDict [("embedding", PyList [PyFloat 0.1; PyFloat 0.2])];
                           PyDict [("embedding", PyList [PyFloat 0.5])]]);
          ("usage", PyDict [("total_tokens", PyInt 5)])].

(** [{"data":[],"usage":{}}] *)
Definition body_no_total : string :=
  "{" +:+ q "data" +:+ ":[]," +:+ q "usage" +:+ ":{}}".

Definition value_no_total : pyval :=
  PyDict [("data", PyList []); ("usage", PyDict [])].

(** [{"usage":{"total_tokens":5}}] *)
Definition body_no_data : string :=
  "{" +:+ q "usage" +:+ ":{" +:+ q "total_tokens" +:+ ":5}}".

Definition value_no_data : pyval :=
  PyDict [("usage", PyDict [("total_tokens", PyInt 5)])].

(** [{"error":{"code":401,"message":"bad key"}}] *)
Definition body_bad_key : string :=
  "{" +:+ q "error" +:+ ":{" +:+ q "code" +:+ ":401," +:+
  q "message" +:+ ":" +:+ q "bad key" +:+ "}}".

Definition value_bad_key : pyval :=
  PyDict [("error", PyDict [("code", PyInt 401); ("message", PyStr "bad key")])].

(** [{"error":{"code":500,"message":"model not loaded"}}] *)
Definition body_code_500 : string :=
  "{" +:+ q "error" +:+ ":{" +:+ q "code" +:+ ":500," +:+
  q "message" +:+ ":" +:+ q "model not loaded" +:+ "}}".

Definition value_code_500 : pyval :=
  PyDict [("error", PyDict [("code", PyInt 500); ("message", PyStr "model not loaded")])].

Definition bodies : list (string * pyval) :=
  [ (body_one_vector, value_one_vector);
    (body_two_vectors, value_two_vectors);
    (body_no_total, value_no_total);
    (body_no_data, value_no_data);
    (body_bad_key, value_bad_key);
    (body_code_500, value_code_500) ].

Definition decode (body : string) : string + pyval :=
  match assoc body bodies with
  | Some v => inr v
  | None => inl "Expecting value: line 1 column 1 (char 0)"
  end.

(** [json.dumps] on the request payload, a dict of strings that need no
    escaping. *)
Definition encode_member (kv : string * pyval) : string :=
  match kv with
  | (k, PyStr s) => q k +:+ ": " +:+ q s
  | (k, _) => q k +:+ ": null"
  end.

Definition encode (v : pyval) : string :=
  match v with
  | PyDict kvs => "{" +:+ String.concat ", " (map encode_member kvs) +:+ "}"
  | _ => "null"
  end.

Definition describe (e : exc) : string :=
  match e with
  | Exc _ (PyStr s) => s
  | _ => "error"
  end.

Definition class_name (c : exc_class) : string :=
  match c with
  | InvokeError => "InvokeError"
  | InvokeConnectionError => "InvokeConnectionError"
  | InvokeServerUnavailableError => "InvokeServerUnavailableError"
  | InvokeRateLimitError => "InvokeRateLimitError"
  | InvokeAuthorizationError => "InvokeAuthorizationError"
  | InvokeBadRequestError => "InvokeBadRequestError"
  | CredentialsValidateFailedError => "CredentialsValidateFailedError"
  | KeyError => "KeyError"
  | TypeError => "TypeError"
  | ValueError => "ValueError"
  | OverflowError => "OverflowError"
  | IndexError => "IndexError"
  | JSONDecodeError => "JSONDecodeError"
  | OtherException name => name
  end.

(** [str(e)] for an Invoke error as [core/model_runtime/errors/invoke.py]
    declares the class: the constructor keeps its argument as [description],
    [__str__] returns [self.description or self.__class__.__name__], and
    [str] raises [TypeError] when that is no string.  An exception object
    given as the argument is truthy and no string. *)
Definition invoke_error_str (e : exc) : result string :=
  match e with
  | Exc c (PyStr s) => Ok (if String.eqb s EmptyString then class_name c else s)
  | Exc c v => if truthy v then Raise (ExcRuntime TypeError) else Ok (class_name c)
  | ExcFrom c _ => Raise (ExcRuntime TypeError)
  | ExcRuntime c => Ok (class_name c)
  end.

(** A usage entity that takes integers only. *)
Definition integers_only (v : pyval) : result Z :=
  Raise (Exc (OtherException "ValidationError")
             (PyStr "value is not a valid integer")).

Definition small_float (z : Z) : option float :=
  match z with
  | 0 => Some 0%float
  | 1 => Some 1%float
  | 2 => Some 2%float
  | _ => None
  end.

Definition no_pricing (model : string) (credentials : gmap string pyval)
    (price_type : PriceType) (tokens : pyval) : result (PriceInfo.t Z) :=
  Ok {| PriceInfo.unit_price := 0; PriceInfo.unit := 0;
        PriceInfo.total_amount := 0; PriceInfo.currency := "USD" |}.

(** The runtime in which the server answers [status] and [body]. *)
Definition answering (status : Z) (body : string) : Runtime :=
  {| Decimal := Z;
     post := fun _ _ _ _ => Ok {| status_code := status; text := body |};
     response_json := decode;
     dumps := encode;
     str_of_exc := describe;
     str_of_invoke_error := invoke_error_str;
     int_field := integers_only;
     float_of_int := small_float;
     float_of_str := fun _ => None;
     get_price := no_pricing;
     perf_counter := 2%float;
     started_at := 1%float |}.

(** The runtime in which no server listens. *)
Definition unreachable : Runtime :=
  {| Decimal := Z;
     post := fun _ _ _ _ => Raise (Exc (OtherException "ConnectionError")
                                       (PyStr "Connection refused"));
     response_json := decode;
     dumps := encode;
     str_of_exc := describe;
     str_of_invoke_error := invoke_error_str;
     int_field := integers_only;
     float_of_int := small_float;
     float_of_str := fun _ => None;
     get_price := no_pricing;
     perf_counter := 2%float;
     started_at := 1%float |}.

Definition localhost : gmap string pyval :=
  {[ "server_url" := PyStr "http://localhost:8080" ]}.

Definition localhost_slash : gmap string pyval :=
  {[ "server_url" := PyStr "http://localhost:8080/" ]}.

Definition blank_url : gmap string pyval :=
  {[ "server_url" := PyStr EmptyString ]}.

Definition no_url : gmap string pyval := ∅.

(** The request of [_invoke] for the text [hi] and the model [m] to the
    server of [localhost]. *)
Definition request_hi : http_request :=
  {| method := POST;
     url := "http://localhost:8080/embeddings";
     headers := [("Authorization", "Bearer 123");
                 ("Content-Type", "application/json")];
     data := encode (PyDict [("model", PyStr "m"); ("input", PyStr "hi")]);
     timeout := 10 |}.

Definition usage_5 : EmbeddingUsage.t Z :=
  {| EmbeddingUsage.tokens := PyInt 5;
     EmbeddingUsage.total_tokens := PyInt 5;
     EmbeddingUsage.unit_price := 0;
     EmbeddingUsage.price_unit := 0;
     EmbeddingUsage.total_price := 0;
     EmbeddingUsage.currency := "USD";
     EmbeddingUsage.latency := 1%float |}.

(** What [_invoke] returns for the body [body_two_vectors]. *)
Definition result_two_vectors : TextEmbeddingResult.t Z :=
  {| TextEmbeddingResult.model := "m";
     TextEmbeddingResult.embeddings := [[0.1%float; 0.2%float]; [0.5%float]];
     TextEmbeddingResult.usage := usage_5 |}.

(** The module file of the tokenizer accessor in an installation. *)
Definition tokenizer_py : string :=
  "/app/api/core/model_runtime/model_providers/minimax/tokenizer.py".

(** A tokenizer loader that gives the [n]-th object on its [n]-th call. *)
Definition fresh_tokenizer (path : string) (n : nat) : result nat := Ok n.

(** The process after a first [get_encoder] with that loader. *)
Definition after_first_call : Minimax.process nat :=
  {| Minimax.tokenizer := Some 0%nat;
     Minimax.loaded := [posix_join_all (posix_dirname tokenizer_py)
                          [".."; "__base"; "tokenizers"; "gpt2"]] |}.

End Scenario.

(** ** Token counting of the embedding client: [get_num_tokens] *)

Module LocalAITokens.
Import Python.

Section Counting.

(** [self._get_num_tokens_by_gpt2(text)] of the base class: the count, or
    the exception the tokenizer raises. *)
Variable _get_num_tokens_by_gpt2 : string -> result Z.

(** The [for] loop of lines 106-108 from the value [num_tokens] has when a
    text is reached. *)
Fixpoint count_from (num_tokens : Z) (texts : list string) : result Z :=
  match texts with
  | [] => Ok num_tokens
  | text :: rest =>
      match _get_num_tokens_by_gpt2 text with
      | Ok n => count_from (num_tokens + n) rest
      | Raise e => Raise e
      end
  end.

Definition get_num_tokens (model : string) (credentials : gmap string pyval)
    (texts : list string) : result Z :=
  let num_tokens := 0 in
  count_from num_tokens texts.

End Counting.

End LocalAITokens.

(** ** More values and runtimes for the instances *)

Module Cases.
Import Python LocalAI Scenario.



(** [{"data":[{}],"usage":{"total_tokens":5}}] *)
Definition body_no_embedding : string :=
  "{" +:+ q "data" +:+ ":[{}]," +:+
  q "usage" +:+ ":{" +:+ q "total_tokens" +:+ ":5}}".

Definition value_no_embedding : pyval :=
  PyDict [("data", PyList [PyDict []]);
          ("usage", PyDict [("total_tokens", PyInt 5)])].

(** [{"data":7,"usage":{"total_tokens":5}}] *)
Definition body_data_number : string :=
  "{" +:+ q "data" +:+ ":7," +:+
  q "usage" +:+ ":{" +:+ q "total_tokens" +:+ ":5}}".

Definition value_data_number : pyval :=
  PyDict [("data", PyInt 7); ("usage", PyDict [("total_tokens", PyInt 5)])].

(** [{"data":[{"index":0,"embedding":[0.1,0.2]}],"usage":{"total_tokens":5}}] *)
Definition body_indexed : string :=
  "{" +:+ q "data" +:+ ":[{" +:+ q "index" +:+ ":0," +:+ q "embedding" +:+
  ":[0.1,0.2]}]," +:+ q "usage" +:+ ":{" +:+ q "total_tokens" +:+ ":5}}".

Definition value_indexed : pyval :=
  PyDict [("data", PyList [PyDict [("index", PyInt 0);
                                   ("embedding", PyList [PyFloat 0.1; PyFloat 0.2])]]);
          ("usage", PyDict [("total_tokens", PyInt 5)])].

Definition more_bodies : list (string * pyval) :=
  [ (body_no_embedding, value_no_embedding);
    (body_data_number, value_data_number);
    (body_indexed, value_indexed) ].

Definition decode_more (body : string) : string + pyval :=
  match assoc body more_bodies with
  | Some v => inr v
  | None => decode body
  end.

(** The runtime in which the server answers [status] and [body], with the
    larger table of bodies. *)
Definition replying (status : Z) (body : string) : Runtime :=
  {| Decimal := Z;
     post := fun _ _ _ _ => Ok {| status_code := status; text := body |};
     response_json := decode_more;
     dumps := encode;
     str_of_exc := describe;
     str_of_invoke_error := invoke_error_str;
     int_field := integers_only;
     float_of_int := small_float;
     float_of_str := fun _ => None;
     get_price := no_pricing;
     perf_counter := 2%float;
     started_at := 1%float |}.

(** The runtime in which the server answers [status] and [body] and the
    price lookup fails. *)
Definition unpriced (status : Z) (body : string) : Runtime :=
  {| Decimal := Z;
     post := fun _ _ _ _ => Ok {| status_code := status; text := body |};
     response_json := decode_more;
     dumps := encode;
     str_of_exc := describe;
     str_of_invoke_error := invoke_error_str;
     int_field := integers_only;
     float_of_int := small_float;
     float_of_str := fun _ => None;
     get_price := fun _ _ _ _ =>
                    Raise (Exc (OtherException "ModelNotFound") (PyStr "no schema"));
     perf_counter := 2%float;
     started_at := 1%float |}.

Definition numeric_url : gmap string pyval :=
  {[ "server_url" := PyInt 8080 ]}.

(** What [_invoke] returns for the body [body_one_vector]. *)
Definition result_one_vector : TextEmbeddingResult.t Z :=
  {| TextEmbeddingResult.model := "m";
     TextEmbeddingResult.embeddings := [[0.1%float; 0.2%float]];
     TextEmbeddingResult.usage := usage_5 |}.

(** A tokenizer that counts the characters, except that it fails on the
    text [boom]. *)
Definition by_characters (text : string) : result Z :=
  if String.eqb text "boom"
  then Raise (Exc (OtherException "TokenizerError") (PyStr "boom"))
  else Ok (Z.of_nat (String.length text)).

(** A tokenizer loader whose first call fails and whose later calls give
    the [n]-th object. *)
Definition second_try (path : string) (n : nat) : result nat :=
  match n with
  | O => Raise (Exc (OtherException "OSError") (PyStr path))
  | S _ => Ok n
  end.

(** An encoder with one token per character. *)
Definition codes (t : nat) (text : string) : list Z :=
  map (fun c => Z.of_nat (nat_of_ascii c)) (list_ascii_of_string text).

(** The path [get_encoder] loads from when the module file is
    [tokenizer_py]. *)
Definition gpt2_path : string :=
  "/app/api/core/model_runtime/model_providers/minimax/../__base/tokenizers/gpt2".

(** The process after a first [get_encoder] whose load failed. *)
Definition after_failed_load : Minimax.process nat :=
  {| Minimax.tokenizer := None; Minimax.loaded := [gpt2_path] |}.

Definition zero_price : PriceInfo.t Z :=
  {| PriceInfo.unit_price := 0; PriceInfo.unit := 0;
     PriceInfo.total_amount := 0; PriceInfo.currency := "USD" |}.

End Cases.

(** * Properties *)

(** ** Computations: laws of sequencing, and what sends no request *)

Section Computations.
Import Python LocalAI.

Lemma bind_ret {A B : Type} (a : A) (k : A -> M B) : bind (ret a) k = k a.
Proof. unfold bind, ret. destruct (k a) as [log r]. reflexivity. Qed.

Lemma bind_lift_Ok {A B : Type} (a : A) (k : A -> M B) : bind (lift (Ok a)) k = k a.
Proof. apply bind_ret. Qed.

Lemma bind_lift_Raise {A B : Type} (e : exc) (k : A -> M B) :
  bind (lift (Raise e)) k = raise e.
Proof. reflexivity. Qed.

Lemma outcome_bind_Ok {A B : Type} (m : M A) (k : A -> M B) (b : B) :
  outcome (bind m k) = Ok b ->
  exists a, outcome m = Ok a /\ outcome (k a) = Ok b.
Proof.
  destruct m as [log [a | e]]; unfold outcome, bind; simpl.
  - destruct (k a) as [log' r] eqn:Hk. simpl. intros ->. exists a.
    rewrite Hk. split; reflexivity.
  - discriminate.
Qed.

Lemma outcome_try_except_Ok {A : Type} (m : M A) (h : exc -> M A) (a : A) :
  (forall e, outcome (h e) <> Ok a) ->
  outcome (try_except m (fun e => Some (h e))) = Ok a ->
  outcome m = Ok a.
Proof.
  intros Hh. destruct m as [log [a' | e]]; unfold outcome, try_except; simpl.
  - tauto.
  - specialize (Hh e). destruct (h e) as [log' r]. simpl in *. tauto.
Qed.

Lemma quiet_ret {A : Type} (a : A) : quiet (ret a).
Proof. reflexivity. Qed.

Lemma quiet_raise {A : Type} (e : exc) : quiet (@raise A e).
Proof. reflexivity. Qed.

Lemma quiet_lift {A : Type} (r : result A) : quiet (lift r).
Proof. reflexivity. Qed.

Lemma quiet_bind {A B : Type} (m : M A) (k : A -> M B) :
  quiet m -> (forall a, quiet (k a)) -> quiet (bind m k).
Proof.
  unfold quiet, requests_sent. destruct m as [log [a | e]]; simpl; intros -> Hk.
  - specialize (Hk a). destruct (k a) as [log' r]. simpl in *. assumption.
  - reflexivity.
Qed.

Lemma quiet_try_except {A : Type} (m : M A) (h : exc -> option (M A)) :
  quiet m -> (forall e m', h e = Some m' -> quiet m') -> quiet (try_except m h).
Proof.
  unfold quiet, requests_sent. destruct m as [log [a | e]]; simpl; intros -> Hh.
  - reflexivity.
  - destruct (h e) as [m' |] eqn:He; [| reflexivity].
    specialize (Hh e m' He). destruct m' as [log' r]. simpl in *. assumption.
Qed.

Lemma quiet_mapM {A B : Type} (f : A -> M B) (l : list A) :
  (forall x, quiet (f x)) -> quiet (mapM f l).
Proof.
  intros Hf. induction l as [| x rest IH]; simpl.
  - apply quiet_ret.
  - apply quiet_bind; [apply Hf |]. intros y.
    apply quiet_bind; [exact IH |]. intros ys. apply quiet_ret.
Qed.

(** A comprehension that succeeds gives one element per element visited. *)
Lemma mapM_length {A B : Type} (f : A -> M B) (l : list A) (ys : list B) :
  outcome (mapM f l) = Ok ys -> length ys = length l.
Proof.
  revert ys. induction l as [| x rest IH]; simpl; intros ys H.
  - unfold outcome, ret in H. simpl in H. injection H as <-. reflexivity.
  - apply outcome_bind_Ok in H as (y & _ & H).
    apply outcome_bind_Ok in H as (ys' & Hrest & H).
    unfold outcome, ret in H. simpl in H. injection H as <-.
    simpl. f_equal. apply IH. exact Hrest.
Qed.

End Computations.

(** ** The embedding client *)

Section ClientProperties.
Import Python LocalAI.
Context {rt : Runtime}.

Lemma truthy_str (s : string) : s <> EmptyString -> truthy (PyStr s) = true.
Proof. intros H. simpl. apply String.eqb_neq in H. rewrite H. reflexivity. Qed.

Lemma posix_join_embeddings (u : string) :
  u <> EmptyString ->
  posix_join u "embeddings" =
  if ends_with_slash u then u +:+ "embeddings" else u +:+ "/embeddings".
Proof.
  intros H. unfold posix_join. apply String.eqb_neq in H. rewrite H. reflexivity.
Qed.

(** Lines 32-33. *)
Lemma invoke_wrong_count (model : string) (credentials : gmap string pyval)
    (texts : list string) :
  length texts <> 1%nat ->
  _invoke model credentials texts =
  ([], Raise (Exc InvokeBadRequestError (PyStr "Only one text is supported"))).
Proof.
  intros H. unfold _invoke. apply Nat.eqb_neq in H. rewrite H. reflexivity.
Qed.

Lemma length_one {A : Type} (l : list A) : length l = 1%nat -> exists x, l = [x].
Proof. destruct l as [| x [| y l]]; try discriminate. intros _. exists x. reflexivity. Qed.

(** Lines 35-38. *)
Lemma invoke_falsy_url (model : string) (credentials : gmap string pyval)
    (t : string) (v : pyval) :
  credentials !! "server_url" = Some v -> truthy v = false ->
  _invoke model credentials [t] =
  ([], Raise (Exc CredentialsValidateFailedError (PyStr "server_url is required"))).
Proof.
  intros Hv Hf. unfold _invoke, dict_getitem. cbn [length Nat.eqb negb].
  rewrite Hv, bind_lift_Ok, Hf. reflexivity.
Qed.

(** Lines 35-40. *)
Lemma invoke_empty_model (credentials : gmap string pyval) (t : string) (v : pyval) :
  credentials !! "server_url" = Some v -> truthy v = true ->
  _invoke EmptyString credentials [t] =
  ([], Raise (Exc CredentialsValidateFailedError (PyStr "model_name is required"))).
Proof.
  intros Hv Ht. unfold _invoke, dict_getitem. cbn [length Nat.eqb negb].
  rewrite Hv, bind_lift_Ok, Ht. reflexivity.
Qed.

(** Line 35 when the key is absent. *)
Lemma invoke_missing_url (model : string) (credentials : gmap string pyval) (t : string) :
  credentials !! "server_url" = None ->
  _invoke model credentials [t] = ([], Raise (Exc KeyError (PyStr "server_url"))).
Proof.
  intros Hv. unfold _invoke, dict_getitem. cbn [length Nat.eqb negb].
  rewrite Hv. reflexivity.
Qed.

(** Lines 42-56 on inputs that pass the checks. *)
Lemma invoke_sends (model : string) (credentials : gmap string pyval) (t u : string) :
  credentials !! "server_url" = Some (PyStr u) -> u <> EmptyString ->
  model <> EmptyString ->
  _invoke model credentials [t] =
  bind (try_except
          (call_post (posix_join u "embeddings") request_headers
                     (dumps (request_data model t)) 10)
          (fun e => Some (raise (ExcFrom InvokeConnectionError e))))
       (interpret_response model credentials).
Proof.
  intros Hv Hu Hm. unfold _invoke, dict_getitem. cbn [length Nat.eqb negb].
  rewrite Hv, bind_lift_Ok, !truthy_str by assumption.
  cbn [negb list_getitem_0 path_join]. rewrite !bind_lift_Ok. reflexivity.
Qed.

Ltac handler_cases H :=
  cbv beta in H;
  repeat match type of H with
         | context [if ?b then _ else _] => destruct b
         end;
  try discriminate H; injection H as <-.

Ltac quiet_tac :=
  repeat match goal with
         | |- quiet (ret _) => apply quiet_ret
         | |- quiet (raise _) => apply quiet_raise
         | |- quiet (lift _) => apply quiet_lift
         | |- quiet (bind _ _) => apply quiet_bind; [| intros ?]
         | |- quiet (mapM _ _) => apply quiet_mapM; intros ?
         | |- quiet (try_except _ _) =>
             apply quiet_try_except;
             [| let H := fresh "H" in intros ? ? H; handler_cases H]
         | |- quiet (if ?b then _ else _) => destruct b
         end.

Lemma error_response_quiet (r : Response) : quiet (error_response r).
Proof. unfold error_response. quiet_tac. Qed.

Lemma read_body_quiet (r : Response) : quiet (read_body r).
Proof. unfold read_body. quiet_tac. Qed.

Lemma embedding_vectors_quiet (v : pyval) : quiet (embedding_vectors v).
Proof. unfold embedding_vectors. quiet_tac. Qed.

Lemma calc_response_usage_quiet (model : string) (credentials : gmap string pyval)
    (tokens : pyval) : quiet (_calc_response_usage model credentials tokens).
Proof. unfold _calc_response_usage. quiet_tac. Qed.

(** Lines 58-94 send nothing. *)
Lemma interpret_response_quiet (model : string) (credentials : gmap string pyval)
    (r : Response) : quiet (interpret_response model credentials r).
Proof.
  unfold interpret_response.
  apply quiet_bind; [destruct (negb _); [apply error_response_quiet | apply quiet_ret] |].
  intros _. apply quiet_bind; [apply read_body_quiet |]. intros body.
  apply quiet_bind; [apply quiet_lift |]. intros tokens.
  apply quiet_bind; [apply calc_response_usage_quiet |]. intros usage.
  apply quiet_bind; [apply embedding_vectors_quiet |]. intros vectors.
  apply quiet_ret.
Qed.

(** The one request of a call that passes the checks, and what the call
    makes of the answer. *)
Lemma invoke_answered (model : string) (credentials : gmap string pyval)
    (t u : string) (r : Response) :
  credentials !! "server_url" = Some (PyStr u) -> u <> EmptyString ->
  model <> EmptyString -> server_answers u model t r ->
  _invoke model credentials [t] =
  ([{| method := POST; url := posix_join u "embeddings"; headers := request_headers;
       data := dumps (request_data model t); timeout := 10 |}],
   outcome (interpret_response model credentials r)).
Proof.
  intros Hv Hu Hm Ha. rewrite (invoke_sends model credentials t u Hv Hu Hm).
  unfold call_post. unfold server_answers in Ha. rewrite Ha.
  pose proof (interpret_response_quiet model credentials r) as Hq.
  unfold try_except, bind.
  destruct (interpret_response model credentials r) as [log' r'].
  unfold quiet, requests_sent in Hq. simpl in Hq. subst log'. reflexivity.
Qed.

(** Lines 53-56 when the transport raises. *)
Lemma invoke_unanswered (model : string) (credentials : gmap string pyval)
    (t u : string) (e : exc) :
  credentials !! "server_url" = Some (PyStr u) -> u <> EmptyString ->
  model <> EmptyString ->
  post (posix_join u "embeddings") request_headers
       (dumps (request_data model t)) 10 = Raise e ->
  _invoke model credentials [t] =
  ([{| method := POST; url := posix_join u "embeddings"; headers := request_headers;
       data := dumps (request_data model t); timeout := 10 |}],
   Raise (ExcFrom InvokeConnectionError e)).
Proof.
  intros Hv Hu Hm Ha. rewrite (invoke_sends model credentials t u Hv Hu Hm).
  unfold call_post. rewrite Ha. reflexivity.
Qed.

(** Lines 58-75 on a body that is no JSON. *)
Lemma error_response_undecodable (r : Response) (msg : string) :
  response_json (text r) = inl msg ->
  error_response r =
  raise (Exc InvokeServerUnavailableError
           (PyStr (json_failure_message (Exc JSONDecodeError (PyStr msg)) r))).
Proof. intros H. unfold error_response, json. rewrite H. reflexivity. Qed.

(** Lines 58-73 on a body with [error.code] and [error.message]. *)
Lemma error_response_dispatch (r : Response) (resp error code msg : pyval) :
  response_json (text r) = inr resp ->
  getitem resp "error" = Ok error ->
  getitem error "code" = Ok code ->
  getitem error "message" = Ok msg ->
  error_response r =
  raise (Exc (if eq_500 code then InvokeServerUnavailableError
              else if status_code r =? 401 then InvokeAuthorizationError
              else if status_code r =? 429 then InvokeRateLimitError
              else if status_code r =? 500 then InvokeServerUnavailableError
              else InvokeError) msg).
Proof.
  intros Hj He Hc Hm. unfold error_response, json.
  rewrite Hj, !bind_lift_Ok, He, !bind_lift_Ok, Hc, !bind_lift_Ok, Hm, bind_lift_Ok.
  destruct (eq_500 code); [reflexivity |].
  destruct (status_code r =? 401); [reflexivity |].
  destruct (status_code r =? 429); [reflexivity |].
  destruct (status_code r =? 500); reflexivity.
Qed.

(** Lines 77-82. *)
Lemma read_body_undecodable (r : Response) (msg : string) :
  response_json (text r) = inl msg ->
  read_body r =
  raise (Exc InvokeServerUnavailableError
           (PyStr (json_failure_message (Exc JSONDecodeError (PyStr msg)) r))).
Proof. intros H. unfold read_body, json. rewrite H. reflexivity. Qed.

Lemma read_body_no_data (r : Response) (resp : pyval) (e : exc) :
  response_json (text r) = inr resp ->
  getitem resp "data" = Raise e ->
  read_body r =
  raise (Exc InvokeServerUnavailableError (PyStr (json_failure_message e r))).
Proof. intros H Hd. unfold read_body, json. rewrite H, bind_lift_Ok, Hd. reflexivity. Qed.

Lemma read_body_no_usage (r : Response) (resp data : pyval) (e : exc) :
  response_json (text r) = inr resp ->
  getitem resp "data" = Ok data ->
  getitem resp "usage" = Raise e ->
  read_body r =
  raise (Exc InvokeServerUnavailableError (PyStr (json_failure_message e r))).
Proof.
  intros H Hd Hu. unfold read_body, json.
  rewrite H, bind_lift_Ok, Hd, bind_lift_Ok, Hu. reflexivity.
Qed.

Lemma read_body_Ok (r : Response) (resp data usage : pyval) :
  response_json (text r) = inr resp ->
  getitem resp "data" = Ok data ->
  getitem resp "usage" = Ok usage ->
  read_body r = ret (data, usage).
Proof.
  intros H Hd Hu. unfold read_body, json.
  rewrite H, bind_lift_Ok, Hd, bind_lift_Ok, Hu, bind_lift_Ok. reflexivity.
Qed.

(** A response with status 200 skips lines 58-75. *)
Lemma interpret_response_200 (model : string) (credentials : gmap string pyval)
    (r : Response) :
  status_code r = 200 ->
  interpret_response model credentials r =
  bind (read_body r) (fun body =>
    bind (lift (getitem (snd body) "total_tokens")) (fun tokens =>
      bind (_calc_response_usage model credentials tokens) (fun usage =>
        bind (embedding_vectors (fst body)) (fun vectors =>
          ret {| TextEmbeddingResult.model := model;
                 TextEmbeddingResult.embeddings := vectors;
                 TextEmbeddingResult.usage := usage |})))).
Proof.
  intros H. unfold interpret_response. rewrite H. cbn [Z.eqb Pos.eqb negb].
  rewrite bind_ret. reflexivity.
Qed.

(** A response with another status ends in lines 58-75. *)
Lemma interpret_response_not_200 (model : string) (credentials : gmap string pyval)
    (r : Response) (e : exc) :
  status_code r <> 200 ->
  error_response r = raise e ->
  interpret_response model credentials r = raise e.
Proof.
  intros H He. unfold interpret_response. apply Z.eqb_neq in H. rewrite H.
  cbn [negb]. rewrite He. reflexivity.
Qed.

(** A failed lookup raises [KeyError] or [TypeError]. *)
Lemma getitem_Raise (v : pyval) (k : string) (e : exc) :
  getitem v k = Raise e -> e = Exc KeyError (PyStr k) \/ e = ExcRuntime TypeError.
Proof.
  destruct v; simpl; try (intros [= <-]; right; reflexivity).
  destruct (assoc k kvs); [discriminate |]. intros [= <-]. left. reflexivity.
Qed.

Lemma getitem_Raise_not_decode (v : pyval) (k : string) (e : exc) :
  getitem v k = Raise e -> isinstance e JSONDecodeError = false.
Proof. intros H. destruct (getitem_Raise v k e H) as [-> | ->]; reflexivity. Qed.

Lemma try_except_unhandled {A : Type} (e : exc) (h : exc -> option (M A)) :
  h e = None -> try_except (raise e) h = raise e.
Proof. intros H. unfold try_except, raise. rewrite H. reflexivity. Qed.

(** Lines 58-75 never fall through to line 77. *)
Lemma error_response_raises (r : Response) : exists e, error_response r = raise e.
Proof.
  destruct (response_json (text r)) as [msg | resp] eqn:Hj.
  - eexists. apply (error_response_undecodable r msg Hj).
  - destruct (getitem resp "error") as [error | e] eqn:He.
    + destruct (getitem error "code") as [code | e] eqn:Hc.
      * destruct (getitem error "message") as [msg | e] eqn:Hm.
        -- eexists. apply (error_response_dispatch r resp error code msg Hj He Hc Hm).
        -- exists e. unfold error_response, json.
           rewrite Hj, !bind_lift_Ok, He, !bind_lift_Ok, Hc, !bind_lift_Ok, Hm.
           rewrite bind_lift_Raise. apply try_except_unhandled.
           rewrite (getitem_Raise_not_decode _ _ _ Hm). reflexivity.
      * exists e. unfold error_response, json.
        rewrite Hj, !bind_lift_Ok, He, !bind_lift_Ok, Hc.
        rewrite bind_lift_Raise. apply try_except_unhandled.
        rewrite (getitem_Raise_not_decode _ _ _ Hc). reflexivity.
    + exists e. unfold error_response, json.
      rewrite Hj, !bind_lift_Ok, He.
      rewrite bind_lift_Raise. apply try_except_unhandled.
      rewrite (getitem_Raise_not_decode _ _ _ He). reflexivity.
Qed.

(** What a successful [read_body] has read. *)
Lemma read_body_Ok_inv (r : Response) (body : pyval * pyval) :
  outcome (read_body r) = Ok body ->
  exists resp, response_json (text r) = inr resp /\
               getitem resp "data" = Ok (fst body) /\
               getitem resp "usage" = Ok (snd body).
Proof.
  unfold read_body. intros H.
  apply (outcome_try_except_Ok _
           (fun e => raise (Exc InvokeServerUnavailableError
                              (PyStr (json_failure_message e r))))) in H;
    [| discriminate].
  apply outcome_bind_Ok in H as (resp & Hj & H).
  apply outcome_bind_Ok in H as (data & Hd & H).
  apply outcome_bind_Ok in H as (usage & Hu & H).
  unfold outcome, ret, lift, json in *. simpl in *.
  injection H as <-. exists resp.
  destruct (response_json (text r)) as [msg | resp']; [discriminate |].
  injection Hj as ->. auto.
Qed.

(** What a successful call has gone through. *)
Lemma invoke_Ok_inv (model : string) (credentials : gmap string pyval)
    (texts : list string) (res : TextEmbeddingResult.t Decimal) :
  outcome (_invoke model credentials texts) = Ok res ->
  exists t u r,
    texts = [t] /\ credentials !! "server_url" = Some (PyStr u) /\
    u <> EmptyString /\ model <> EmptyString /\
    server_answers u model t r /\ status_code r = 200 /\
    outcome (interpret_response model credentials r) = Ok res.
Proof.
  intros H.
  destruct (Nat.eq_dec (length texts) 1%nat) as [Hlen | Hlen];
    [| rewrite (invoke_wrong_count _ _ _ Hlen) in H; discriminate].
  apply length_one in Hlen as [t ->].
  destruct (credentials !! "server_url") as [v |] eqn:Hv;
    [| rewrite (invoke_missing_url _ _ _ Hv) in H; discriminate].
  destruct (truthy v) eqn:Htr;
    [| rewrite (invoke_falsy_url _ _ _ _ Hv Htr) in H; discriminate].
  destruct (String.eqb model EmptyString) eqn:Hm.
  { apply String.eqb_eq in Hm. subst model.
    rewrite (invoke_empty_model _ _ _ Hv Htr) in H. discriminate. }
  apply String.eqb_neq in Hm.
  destruct v as [| b | z | f | u | l | kvs];
    try (unfold _invoke, dict_getitem in H; cbn [length Nat.eqb negb] in H;
         rewrite Hv, bind_lift_Ok, Htr, (truthy_str model Hm) in H;
         discriminate H).
  assert (Hu : u <> EmptyString).
  { intros ->. discriminate Htr. }
  destruct (post (posix_join u "embeddings") request_headers
                 (dumps (request_data model t)) 10) as [r | e] eqn:Hp.
  - rewrite (invoke_answered model credentials t u r Hv Hu Hm Hp) in H.
    unfold outcome in H at 1. simpl in H.
    exists t, u, r. repeat split; try assumption.
    destruct (Z.eq_dec (status_code r) 200) as [| Hs]; [assumption |].
    destruct (error_response_raises r) as [e He].
    rewrite (interpret_response_not_200 _ _ _ _ Hs He) in H. discriminate.
  - rewrite (invoke_unanswered model credentials t u e Hv Hu Hm Hp) in H.
    discriminate.
Qed.

(** C6: for every list [texts] whose length is not 1, [_invoke] fails with a
    BadRequest error ([InvokeBadRequestError]) and has sent no request. *)
Theorem invoke_rejects_wrong_text_count (model : string)
    (credentials : gmap string pyval) (texts : list string) :
  length texts <> 1%nat ->
  requests_sent (_invoke model credentials texts) = [] /\
  outcome (_invoke model credentials texts) =
  Raise (Exc InvokeBadRequestError (PyStr "Only one text is supported")).
Proof.
  intros H. rewrite (invoke_wrong_count model credentials texts H).
  split; reflexivity.
Qed.

(** C10: the length check of [texts] comes before the checks of the
    credentials: with a length other than 1, [_invoke] fails with a
    BadRequest error also when [server_url] is missing or empty or the model
    name is empty, and the error is no CredentialsValidation error. *)
Theorem text_count_checked_before_credentials (model : string)
    (credentials : gmap string pyval) (texts : list string) :
  length texts <> 1%nat ->
  credentials !! "server_url" = None \/
  (exists v, credentials !! "server_url" = Some v /\ truthy v = false) \/
  model = EmptyString ->
  exists e, _invoke model credentials texts = ([], Raise e) /\
            exc_class_of e = InvokeBadRequestError /\
            exc_class_of e <> CredentialsValidateFailedError.
Proof.
  intros H _. eexists. split; [apply (invoke_wrong_count model credentials texts H) |].
  split; [reflexivity | discriminate].
Qed.

(** C2 (amended): for a single text, when [server_url] is present in the
    credentials and is empty, or it is present and the model name is empty,
    [_invoke] fails with a CredentialsValidation error and has sent no
    request. *)
Theorem invoke_rejects_blank_credentials (model : string)
    (credentials : gmap string pyval) (texts : list string) (v : pyval) :
  length texts = 1%nat ->
  credentials !! "server_url" = Some v ->
  truthy v = false \/ model = EmptyString ->
  requests_sent (_invoke model credentials texts) = [] /\
  exists msg, outcome (_invoke model credentials texts) =
              Raise (Exc CredentialsValidateFailedError (PyStr msg)).
Proof.
  intros Hlen Hv Hblank. apply length_one in Hlen as [t ->].
  destruct (truthy v) eqn:Htr.
  - destruct Hblank as [| ->]; [discriminate |].
    rewrite (invoke_empty_model credentials t v Hv Htr).
    split; [reflexivity | eexists; reflexivity].
  - rewrite (invoke_falsy_url model credentials t v Hv Htr).
    split; [reflexivity | eexists; reflexivity].
Qed.

(** C3: for a response whose status is not 200 and whose body decodes to
    JSON with [error.code] and [error.message]: when [error.code] equals 500
    the call fails with a Server-Unavailable error whatever the status;
    otherwise with an Authorization error on 401, a RateLimit error on 429, a
    Server-Unavailable error on 500 and the generic Invoke error on any other
    status.  The error carries [error.message]. *)
Theorem error_status_dispatch (model : string) (credentials : gmap string pyval)
    (t u : string) (r : Response) (resp error code msg : pyval) :
  credentials !! "server_url" = Some (PyStr u) -> u <> EmptyString ->
  model <> EmptyString -> server_answers u model t r ->
  status_code r <> 200 ->
  response_json (text r) = inr resp ->
  getitem resp "error" = Ok error ->
  getitem error "code" = Ok code ->
  getitem error "message" = Ok msg ->
  let failure := outcome (_invoke model credentials [t]) in
  (eq_500 code = true -> failure = Raise (Exc InvokeServerUnavailableError msg)) /\
  (eq_500 code = false ->
   (status_code r = 401 -> failure = Raise (Exc InvokeAuthorizationError msg)) /\
   (status_code r = 429 -> failure = Raise (Exc InvokeRateLimitError msg)) /\
   (status_code r = 500 -> failure = Raise (Exc InvokeServerUnavailableError msg)) /\
   (status_code r <> 401 -> status_code r <> 429 -> status_code r <> 500 ->
    failure = Raise (Exc InvokeError msg))).
Proof.
  intros Hv Hu Hm Ha Hs Hj He Hc Hmsg failure. subst failure.
  rewrite (invoke_answered model credentials t u r Hv Hu Hm Ha).
  rewrite (interpret_response_not_200 model credentials r _ Hs
             (error_response_dispatch r resp error code msg Hj He Hc Hmsg)).
  unfold outcome, raise. cbn [snd].
  split; [intros -> ; reflexivity |].
  intros ->. repeat split.
  - intros ->. reflexivity.
  - intros ->. reflexivity.
  - intros ->. reflexivity.
  - intros H1 H2 H3. apply Z.eqb_neq in H1, H2, H3. rewrite H1, H2, H3. reflexivity.
Qed.

(** Line 84: with [data] and [usage] read, a [usage] without [total_tokens]
    makes [_invoke] raise what the lookup raises. *)
Lemma missing_total_tokens_propagates (model : string)
    (credentials : gmap string pyval) (t u : string) (r : Response)
    (resp data usage : pyval) (e : exc) :
  credentials !! "server_url" = Some (PyStr u) -> u <> EmptyString ->
  model <> EmptyString -> server_answers u model t r ->
  status_code r = 200 ->
  response_json (text r) = inr resp ->
  getitem resp "data" = Ok data -> getitem resp "usage" = Ok usage ->
  getitem usage "total_tokens" = Raise e ->
  outcome (_invoke model credentials [t]) = Raise e.
Proof.
  intros Hv Hu Hm Ha Hs Hj Hd Hus Ht.
  rewrite (invoke_answered model credentials t u r Hv Hu Hm Ha).
  rewrite (interpret_response_200 model credentials r Hs).
  rewrite (read_body_Ok r resp data usage Hj Hd Hus), bind_ret.
  cbn [snd]. rewrite Ht. reflexivity.
Qed.

(** C4 (amended): for a response with status 200 whose body is no JSON, or
    decodes to a value without [data] or without [usage], [_invoke] fails with
    a Server-Unavailable error whose message ends with the raw response
    text. *)
Theorem unreadable_success_body (model : string) (credentials : gmap string pyval)
    (t u : string) (r : Response) :
  credentials !! "server_url" = Some (PyStr u) -> u <> EmptyString ->
  model <> EmptyString -> server_answers u model t r ->
  status_code r = 200 ->
  let failure := outcome (_invoke model credentials [t]) in
  let unavailable (e : exc) :=
    Raise (Exc InvokeServerUnavailableError
             (PyStr ("Failed to convert response to json: " +:+ str_of_exc e +:+
                     " with text: " +:+ text r))) in
  (forall msg, response_json (text r) = inl msg ->
     failure = unavailable (Exc JSONDecodeError (PyStr msg))) /\
  (forall resp e, response_json (text r) = inr resp ->
     getitem resp "data" = Raise e -> failure = unavailable e) /\
  (forall resp data e, response_json (text r) = inr resp ->
     getitem resp "data" = Ok data -> getitem resp "usage" = Raise e ->
     failure = unavailable e).
Proof.
  intros Hv Hu Hm Ha Hs failure unavailable. subst failure unavailable.
  rewrite (invoke_answered model credentials t u r Hv Hu Hm Ha).
  rewrite (interpret_response_200 model credentials r Hs).
  unfold outcome at 1 2 3. cbn [snd].
  repeat split.
  - intros msg Hj. rewrite (read_body_undecodable r msg Hj). reflexivity.
  - intros resp e Hj Hd. rewrite (read_body_no_data r resp e Hj Hd). reflexivity.
  - intros resp data e Hj Hd Hus.
    rewrite (read_body_no_usage r resp data e Hj Hd Hus). reflexivity.
Qed.

(** C7: on a response with status 200 and the body
    [{"data":[{"embedding":[0.1,0.2]}],"usage":{"total_tokens":5}}], when the
    price lookup for 5 tokens returns, [_invoke] returns a result with the one
    embedding vector [[0.1, 0.2]] and a usage whose [tokens] is 5. *)
Theorem invoke_one_vector (model : string) (credentials : gmap string pyval)
    (t u : string) (r : Response) (info : PriceInfo.t Decimal) :
  credentials !! "server_url" = Some (PyStr u) -> u <> EmptyString ->
  model <> EmptyString -> server_answers u model t r ->
  status_code r = 200 ->
  text r = Scenario.body_one_vector ->
  response_json Scenario.body_one_vector = inr Scenario.value_one_vector ->
  get_price model credentials INPUT (PyInt 5) = Ok info ->
  exists res,
    outcome (_invoke model credentials [t]) = Ok res /\
    TextEmbeddingResult.embeddings res = [[0.1%float; 0.2%float]] /\
    EmbeddingUsage.tokens (TextEmbeddingResult.usage res) = PyInt 5.
Proof.
  intros Hv Hu Hm Ha Hs Htext Hj Hprice.
  rewrite (invoke_answered model credentials t u r Hv Hu Hm Ha).
  rewrite (interpret_response_200 model credentials r Hs).
  rewrite <- Htext in Hj.
  rewrite (read_body_Ok r _ _ _ Hj eq_refl eq_refl), bind_ret.
  cbn [snd fst]. change (getitem _ "total_tokens") with (Ok (PyInt 5)).
  rewrite bind_lift_Ok. unfold _calc_response_usage.
  rewrite Hprice, bind_lift_Ok. cbn [as_int]. rewrite bind_lift_Ok, bind_ret.
  eexists. split; [reflexivity |]. split; reflexivity.
Qed.

(** C1 (amended): in the result of every successful call of [_invoke], made
    for exactly one text, the embeddings list has one entry for each element
    of the [data] value of the response, whatever their number. *)
Theorem embeddings_follow_response_data (model : string)
    (credentials : gmap string pyval) (texts : list string)
    (res : TextEmbeddingResult.t Decimal) :
  outcome (_invoke model credentials texts) = Ok res ->
  length texts = 1%nat /\
  exists t u r resp data xs,
    texts = [t] /\ credentials !! "server_url" = Some (PyStr u) /\
    server_answers u model t r /\ status_code r = 200 /\
    response_json (text r) = inr resp /\
    getitem resp "data" = Ok data /\ iter data = Ok xs /\
    length (TextEmbeddingResult.embeddings res) = length xs.
Proof.
  intros H.
  apply invoke_Ok_inv in H as (t & u & r & -> & Hv & Hu & Hm & Ha & Hs & H).
  split; [reflexivity |].
  rewrite (interpret_response_200 model credentials r Hs) in H.
  apply outcome_bind_Ok in H as (body & Hbody & H).
  apply read_body_Ok_inv in Hbody as (resp & Hj & Hd & Hus).
  apply outcome_bind_Ok in H as (tokens & _ & H).
  apply outcome_bind_Ok in H as (usage & _ & H).
  apply outcome_bind_Ok in H as (vectors & Hvec & H).
  unfold outcome, ret in H. cbn [snd] in H. injection H as <-.
  unfold embedding_vectors in Hvec.
  apply outcome_bind_Ok in Hvec as (xs & Hxs & Hvec).
  apply mapM_length in Hvec.
  exists t, u, r, resp, (fst body), xs. cbn [TextEmbeddingResult.embeddings].
  repeat split; try assumption.
Qed.

(** C8 (amended): every request [_invoke] sends is the only one of the call,
    made for a single text, and is a POST to [os.path.join(server_url,
    'embeddings')], which is [server_url + '/embeddings'] when [server_url]
    does not end with a slash and [server_url + 'embeddings'] when it does,
    with the headers [Authorization: Bearer 123] and [Content-Type:
    application/json], the JSON body of [{model, input: texts[0]}] and a
    timeout of 10 seconds; and a call with a non-empty string [server_url],
    a non-empty model name and one text sends it. *)
Theorem request_on_the_wire (model : string) (credentials : gmap string pyval)
    (texts : list string) :
  (forall req, In req (requests_sent (_invoke model credentials texts)) ->
     exists u t,
       credentials !! "server_url" = Some (PyStr u) /\ texts = [t] /\
       requests_sent (_invoke model credentials texts) = [req] /\
       method req = POST /\
       url req = (if ends_with_slash u then u +:+ "embeddings"
                  else u +:+ "/embeddings") /\
       headers req = [("Authorization", "Bearer 123");
                      ("Content-Type", "application/json")] /\
       data req = dumps (PyDict [("model", PyStr model); ("input", PyStr t)]) /\
       timeout req = 10) /\
  (forall u t, credentials !! "server_url" = Some (PyStr u) -> u <> EmptyString ->
     model <> EmptyString -> texts = [t] ->
     exists req, requests_sent (_invoke model credentials texts) = [req]).
Proof.
  split.
  - intros req Hin.
    destruct (Nat.eq_dec (length texts) 1%nat) as [Hlen | Hlen];
      [| rewrite (invoke_wrong_count _ _ _ Hlen) in Hin; destruct Hin].
    apply length_one in Hlen as [t ->].
    destruct (credentials !! "server_url") as [v |] eqn:Hv;
      [| rewrite (invoke_missing_url _ _ _ Hv) in Hin; destruct Hin].
    destruct (truthy v) eqn:Htr;
      [| rewrite (invoke_falsy_url _ _ _ _ Hv Htr) in Hin; destruct Hin].
    destruct (String.eqb model EmptyString) eqn:Hm.
    { apply String.eqb_eq in Hm. subst model.
      rewrite (invoke_empty_model _ _ _ Hv Htr) in Hin. destruct Hin. }
    apply String.eqb_neq in Hm.
    destruct v as [| b | z | f | u | l | kvs];
      try (exfalso; unfold _invoke, dict_getitem in Hin;
           cbn [length Nat.eqb negb] in Hin;
           rewrite Hv, bind_lift_Ok, Htr, (truthy_str model Hm) in Hin;
           exact Hin).
    assert (Hu : u <> EmptyString).
    { intros ->. discriminate Htr. }
    exists u, t.
    assert (Hsent : requests_sent (_invoke model credentials [t]) =
                    [{| method := POST; url := posix_join u "embeddings";
                        headers := request_headers;
                        data := dumps (request_data model t); timeout := 10 |}]).
    { destruct (post (posix_join u "embeddings") request_headers
                     (dumps (request_data model t)) 10) as [r | e] eqn:Hp.
      - rewrite (invoke_answered model credentials t u r Hv Hu Hm Hp). reflexivity.
      - rewrite (invoke_unanswered model credentials t u e Hv Hu Hm Hp). reflexivity. }
    rewrite Hsent in Hin |- *. destruct Hin as [<- | []].
    cbn [method url headers data timeout].
    rewrite (posix_join_embeddings u Hu). repeat split; reflexivity.
  - intros u t Hv Hu Hm ->.
    destruct (post (posix_join u "embeddings") request_headers
                   (dumps (request_data model t)) 10) as [r | e] eqn:Hp.
    + rewrite (invoke_answered model credentials t u r Hv Hu Hm Hp). eexists. reflexivity.
    + rewrite (invoke_unanswered model credentials t u e Hv Hu Hm Hp). eexists. reflexivity.
Qed.

End ClientProperties.

(** ** The tokenizer accessor *)

Section TokenizerProperties.
Import Python Minimax.
Variable GPT2Tokenizer : Type.
Variable from_pretrained : string -> nat -> result GPT2Tokenizer.
Variable module_file : string.

Local Abbreviation get_encoder := (get_encoder GPT2Tokenizer from_pretrained module_file).
Local Abbreviation get_encoder_times :=
  (get_encoder_times GPT2Tokenizer from_pretrained module_file).

(** Lines 25 and 30 once the global is set. *)
Lemma get_encoder_cached (p : process GPT2Tokenizer) (t : GPT2Tokenizer) :
  tokenizer p = Some t -> get_encoder p = (Ok t, p).
Proof. intros H. unfold Minimax.get_encoder. rewrite H. reflexivity. Qed.

(** A call that returns leaves the global set to what it returned. *)
Lemma get_encoder_sets (p p1 : process GPT2Tokenizer) (t : GPT2Tokenizer) :
  get_encoder p = (Ok t, p1) -> tokenizer p1 = Some t.
Proof.
  unfold Minimax.get_encoder. destruct (tokenizer p) as [t0 |] eqn:Hp.
  - intros [= <- <-]. exact Hp.
  - destruct (from_pretrained _ _) as [t1 | e]; [| discriminate].
    intros [= <- <-]. reflexivity.
Qed.

Lemma get_encoder_times_cached (k : nat) (p : process GPT2Tokenizer)
    (t : GPT2Tokenizer) :
  tokenizer p = Some t -> get_encoder_times k p = (repeat (Ok t) k, p).
Proof.
  intros H. induction k as [| k IH]; simpl.
  - reflexivity.
  - rewrite (get_encoder_cached p t H), IH. reflexivity.
Qed.

(** Lines 25-30 when the global is unset and the load returns. *)
Lemma get_encoder_loads (p : process GPT2Tokenizer) (t : GPT2Tokenizer) :
  tokenizer p = None ->
  from_pretrained
    (posix_join_all (posix_dirname module_file) [".."; "__base"; "tokenizers"; "gpt2"])
    (length (loaded p)) = Ok t ->
  get_encoder p =
  (Ok t,
   {| tokenizer := Some t;
      loaded := (loaded p ++
                 [posix_join_all (posix_dirname module_file)
                    [".."; "__base"; "tokenizers"; "gpt2"]])%list |}).
Proof.
  intros Hnone Hload. unfold Minimax.get_encoder. rewrite Hnone, Hload. reflexivity.
Qed.

(** C9: a call of [get_encoder] that finds no tokenizer calls
    [from_pretrained] once, on the fixed path, and when that returns an
    instance the call returns it and stores it; a call that finds a tokenizer
    returns it and loads nothing; and after a call has returned an instance,
    every later call returns that same instance and leaves the process as it
    is, the record of loads included.  So the tokenizer is constructed on the
    first call only, and two calls in a row return the same instance. *)
Theorem get_encoder_loads_once (p : process GPT2Tokenizer) :
  (forall t, tokenizer p = None ->
     from_pretrained
       (posix_join_all (posix_dirname module_file)
          [".."; "__base"; "tokenizers"; "gpt2"])
       (length (loaded p)) = Ok t ->
     exists p1,
       get_encoder p = (Ok t, p1) /\ tokenizer p1 = Some t /\
       length (loaded p1) = S (length (loaded p)) /\
       forall k, get_encoder_times k p1 = (repeat (Ok t) k, p1)) /\
  (forall t, tokenizer p = Some t ->
     forall k, get_encoder_times k p = (repeat (Ok t) k, p)) /\
  (forall t p1, get_encoder p = (Ok t, p1) ->
     (tokenizer p = None ->
      exists path, from_pretrained path (length (loaded p)) = Ok t /\
                   loaded p1 = (loaded p ++ [path])%list) /\
     (forall t0, tokenizer p = Some t0 -> t = t0 /\ p1 = p) /\
     (forall k, get_encoder_times k p1 = (repeat (Ok t) k, p1)) /\
     get_encoder p1 = (Ok t, p1)).
Proof.
  split; [| split].
  - intros t Hnone Hload. eexists. split; [apply (get_encoder_loads p t Hnone Hload) |].
    cbn [tokenizer loaded]. split; [reflexivity |]. split.
    + rewrite length_app. cbn [length]. apply Nat.add_1_r.
    + intros k. apply get_encoder_times_cached. reflexivity.
  - intros t Hsome k. apply get_encoder_times_cached. exact Hsome.
  - intros t p1 H. pose proof (get_encoder_sets p p1 t H) as Hset.
    repeat split.
    + intros Hnone. unfold Minimax.get_encoder in H. rewrite Hnone in H.
      destruct (from_pretrained _ _) as [t1 | e] eqn:Hload; [| discriminate].
      injection H as <- <-. eexists. split; [exact Hload | reflexivity].
    + rewrite (get_encoder_cached p t0 H0) in H. injection H as -> _. reflexivity.
    + rewrite (get_encoder_cached p t0 H0) in H. injection H as _ ->. reflexivity.
    + intros k. apply get_encoder_times_cached. exact Hset.
    + apply get_encoder_cached. exact Hset.
Qed.

End TokenizerProperties.

(** ** The properties on the concrete runtimes *)

Section Instances.
Import Python LocalAI Scenario.

Lemma localhost_url : localhost !! "server_url" = Some (PyStr "http://localhost:8080").
Proof. vm_compute. reflexivity. Qed.

Lemma blank_url_url : blank_url !! "server_url" = Some (PyStr EmptyString).
Proof. vm_compute. reflexivity. Qed.

Lemma no_url_url : no_url !! "server_url" = None.
Proof. vm_compute. reflexivity. Qed.

(** Two texts are refused. *)
Lemma invoke_rejects_two_texts :
  requests_sent (@_invoke unreachable "m" localhost ["a"; "b"]) = [] /\
  outcome (@_invoke unreachable "m" localhost ["a"; "b"]) =
  Raise (Exc InvokeBadRequestError (PyStr "Only one text is supported")).
Proof.
  apply (@invoke_rejects_wrong_text_count unreachable "m" localhost ["a"; "b"]).
  simpl. lia.
Defined.

(** No text, no [server_url] and no model name: the text count is reported. *)
Lemma no_text_no_credentials :
  exists e, @_invoke unreachable EmptyString no_url [] = ([], Raise e) /\
            exc_class_of e = InvokeBadRequestError /\
            exc_class_of e <> CredentialsValidateFailedError.
Proof.
  apply (@text_count_checked_before_credentials unreachable EmptyString no_url []).
  - simpl. lia.
  - left. exact no_url_url.
Defined.

(** An empty [server_url] with one text is a credentials failure. *)
Lemma blank_url_rejected :
  requests_sent (@_invoke unreachable "m" blank_url ["ping"]) = [] /\
  exists msg, outcome (@_invoke unreachable "m" blank_url ["ping"]) =
              Raise (Exc CredentialsValidateFailedError (PyStr msg)).
Proof.
  apply (@invoke_rejects_blank_credentials unreachable "m" blank_url ["ping"]
           (PyStr EmptyString)).
  - reflexivity.
  - exact blank_url_url.
  - left. reflexivity.
Defined.

(** C2, as stated, fails: with an empty [server_url] and no text the failure
    is a BadRequest error, and with no [server_url] at all and one text it is
    the [KeyError] of the lookup. *)
Lemma blank_credentials_other_failures :
  outcome (@_invoke unreachable EmptyString blank_url []) =
  Raise (Exc InvokeBadRequestError (PyStr "Only one text is supported")) /\
  outcome (@_invoke unreachable "m" no_url ["ping"]) =
  Raise (Exc KeyError (PyStr "server_url")).
Proof. split; vm_compute; reflexivity. Qed.

(** Status 401 with [{"error":{"code":401,"message":"bad key"}}]. *)
Lemma bad_key_is_authorization_error :
  outcome (@_invoke (answering 401 body_bad_key) "m" localhost ["hi"]) =
  Raise (Exc InvokeAuthorizationError (PyStr "bad key")).
Proof.
  refine (proj1 (proj2 (@error_status_dispatch (answering 401 body_bad_key)
                          "m" localhost "hi" "http://localhost:8080"
                          {| status_code := 401; text := body_bad_key |}
                          value_bad_key
                          (PyDict [("code", PyInt 401); ("message", PyStr "bad key")])
                          (PyInt 401) (PyStr "bad key")
                          localhost_url _ _ _ _ _ _ _ _) _) _);
    try reflexivity; try discriminate.
Defined.

(** Status 200 with [{"usage":{"total_tokens":5}}]: no [data]. *)
Lemma no_data_is_server_unavailable :
  outcome (@_invoke (answering 200 body_no_data) "m" localhost ["hi"]) =
  Raise (Exc InvokeServerUnavailableError
           (PyStr ("Failed to convert response to json: " +:+ "data" +:+
                   " with text: " +:+ body_no_data))).
Proof.
  refine (proj1 (proj2 (@unreadable_success_body (answering 200 body_no_data)
                          "m" localhost "hi" "http://localhost:8080"
                          {| status_code := 200; text := body_no_data |}
                          localhost_url _ _ _ _))
            value_no_data (Exc KeyError (PyStr "data")) _ _);
    try reflexivity; try discriminate.
Defined.

(** C4, as stated, fails: status 200 with [{"data":[],"usage":{}}], which
    has no [usage.total_tokens], ends in a [KeyError]. *)
Lemma missing_total_tokens_is_key_error :
  response_json (Runtime := answering 200 body_no_total) body_no_total =
  inr (PyDict [("data", PyList []); ("usage", PyDict [])]) /\
  outcome (@_invoke (answering 200 body_no_total) "m" localhost ["hi"]) =
  Raise (Exc KeyError (PyStr "total_tokens")).
Proof. split; vm_compute; reflexivity. Qed.

(** The response of the specification's example. *)
Lemma one_vector_returned :
  exists res,
    outcome (@_invoke (answering 200 body_one_vector) "m" localhost ["hi"]) = Ok res /\
    TextEmbeddingResult.embeddings res = [[0.1%float; 0.2%float]] /\
    EmbeddingUsage.tokens (TextEmbeddingResult.usage res) = PyInt 5.
Proof.
  refine (@invoke_one_vector (answering 200 body_one_vector)
            "m" localhost "hi" "http://localhost:8080"
            {| status_code := 200; text := body_one_vector |}
            {| PriceInfo.unit_price := 0; PriceInfo.unit := 0;
               PriceInfo.total_amount := 0; PriceInfo.currency := "USD" |}
            localhost_url _ _ _ _ _ _ _);
    try reflexivity; try discriminate.
Defined.

(** Two vectors in [data] for the one text. *)
Lemma two_vectors_follow_data :
  length ["hi"] = 1%nat /\
  exists t u r resp data xs,
    ["hi"] = [t] /\ localhost !! "server_url" = Some (PyStr u) /\
    server_answers (rt := answering 200 body_two_vectors) u "m" t r /\
    status_code r = 200 /\
    response_json (Runtime := answering 200 body_two_vectors) (text r) = inr resp /\
    getitem resp "data" = Ok data /\ iter data = Ok xs /\
    length (TextEmbeddingResult.embeddings result_two_vectors) = length xs.
Proof.
  apply (@embeddings_follow_response_data (answering 200 body_two_vectors)
           "m" localhost ["hi"] result_two_vectors).
  vm_compute. reflexivity.
Defined.

(** C1, as stated, fails: the server answers the one text with two vectors
    and the call returns both. *)
Lemma two_vectors_for_one_text :
  outcome (@_invoke (answering 200 body_two_vectors) "m" localhost ["hi"]) =
  Ok result_two_vectors /\
  length (TextEmbeddingResult.embeddings result_two_vectors) = 2%nat /\
  length ["hi"] = 1%nat.
Proof. split; [vm_compute; reflexivity | split; reflexivity]. Qed.

(** The request for [hi]. *)
Lemma request_hi_on_the_wire :
  exists u t,
    localhost !! "server_url" = Some (PyStr u) /\ ["hi"] = [t] /\
    requests_sent (@_invoke (answering 200 body_one_vector) "m" localhost ["hi"]) =
    [request_hi] /\
    method request_hi = POST /\
    url request_hi = (if ends_with_slash u then u +:+ "embeddings"
                      else u +:+ "/embeddings") /\
    headers request_hi = [("Authorization", "Bearer 123");
                          ("Content-Type", "application/json")] /\
    data request_hi = encode (PyDict [("model", PyStr "m"); ("input", PyStr t)]) /\
    timeout request_hi = 10.
Proof.
  apply (proj1 (@request_on_the_wire (answering 200 body_one_vector)
                  "m" localhost ["hi"]) request_hi).
  vm_compute. left. reflexivity.
Defined.

(** C8, as stated, fails: for the [server_url] [http://localhost:8080/] the
    request goes to [http://localhost:8080/embeddings], which is not
    [server_url] followed by [/embeddings]. *)
Lemma trailing_slash_url :
  localhost_slash !! "server_url" = Some (PyStr "http://localhost:8080/") /\
  map url (requests_sent
             (@_invoke (answering 200 body_one_vector) "m" localhost_slash ["hi"])) =
  ["http://localhost:8080/embeddings"] /\
  "http://localhost:8080/" +:+ "/embeddings" = "http://localhost:8080//embeddings" /\
  "http://localhost:8080/embeddings" <> "http://localhost:8080//embeddings".
Proof.
  split; [vm_compute; reflexivity |].
  split; [vm_compute; reflexivity |].
  split; [reflexivity | discriminate].
Qed.

(** C5: the claim fails on the code where no server listens: the probe
    raises the Connection error of line 56, which carries the transport's
    exception as its description, and [validate_credentials] then ends in the
    [TypeError] of [str] on line 124, not in a CredentialsValidation
    failure. *)
Theorem unreachable_probe_ends_in_type_error :
  outcome (@_invoke unreachable "m" localhost ["ping"]) =
  Raise (ExcFrom InvokeConnectionError
           (Exc (OtherException "ConnectionError") (PyStr "Connection refused"))) /\
  outcome (@validate_credentials unreachable "m" localhost) =
  Raise (ExcRuntime TypeError).
Proof. split; vm_compute; reflexivity. Qed.

(** The first call at import, with a loader that gives object 0, and the
    second and third call after it. *)
Lemma second_and_third_call_cached :
  exists p1,
    Minimax.get_encoder nat fresh_tokenizer tokenizer_py Minimax.at_import =
    (Ok 0%nat, p1) /\
    Minimax.tokenizer p1 = Some 0%nat /\
    length (Minimax.loaded p1) = S (length (Minimax.loaded (@Minimax.at_import nat))) /\
    forall k, Minimax.get_encoder_times nat fresh_tokenizer tokenizer_py k p1 =
              (repeat (Ok 0%nat) k, p1).
Proof.
  apply (proj1 (@get_encoder_loads_once nat fresh_tokenizer tokenizer_py
                  Minimax.at_import) 0%nat); reflexivity.
Defined.

End Instances.

(** * Further properties *)

(** ** Computations that raise *)

Section RaisingComputations.
Import Python LocalAI.

Lemma outcome_bind_Raise {A B : Type} (m : M A) (k : A -> M B) (e : exc) :
  outcome (bind m k) = Raise e ->
  outcome m = Raise e \/ exists a, outcome m = Ok a /\ outcome (k a) = Raise e.
Proof.
  destruct m as [log [a | e0]]; unfold outcome, bind; simpl.
  - destruct (k a) as [log' r] eqn:Hk. simpl. intros ->. right. exists a.
    rewrite Hk. split; reflexivity.
  - intros [= ->]. left. reflexivity.
Qed.

Lemma outcome_lift {A : Type} (r : result A) : outcome (lift r) = r.
Proof. reflexivity. Qed.

Lemma outcome_mapM_Raise {A B : Type} (f : A -> M B) (l : list A) (e : exc) :
  outcome (mapM f l) = Raise e -> exists x, In x l /\ outcome (f x) = Raise e.
Proof.
  induction l as [| x rest IH]; simpl; intros H.
  - discriminate H.
  - apply outcome_bind_Raise in H as [H | (y & _ & H)].
    + exists x. split; [left; reflexivity | exact H].
    + apply outcome_bind_Raise in H as [H | (ys & _ & H)].
      * destruct (IH H) as (x' & Hin & Hx). exists x'. split; [right |]; assumption.
      * discriminate H.
Qed.

Lemma mapM_Ok {A B : Type} (f : A -> M B) (g : A -> B) (l : list A) :
  (forall x, In x l -> f x = ret (g x)) -> mapM f l = ret (map g l).
Proof.
  induction l as [| x rest IH]; simpl; intros H.
  - reflexivity.
  - rewrite (H x (or_introl eq_refl)), bind_ret, IH, bind_ret; [reflexivity |].
    intros y Hy. apply H. right. exact Hy.
Qed.

Lemma mapM_Forall2 {A B : Type} (f : A -> M B) (l : list A) (ys : list B) :
  Forall2 (fun x y => f x = ret y) l ys -> mapM f l = ret ys.
Proof.
  induction 1 as [| x y l ys Hx _ IH]; simpl.
  - reflexivity.
  - rewrite Hx, bind_ret, IH, bind_ret. reflexivity.
Qed.

End RaisingComputations.

(** ** More on the embedding client *)

Section MoreClientProperties.
Import Python LocalAI Cases.
Context {rt : Runtime}.

(** A truthy [server_url] that is no string fails in [join], inside the
    [try] of lines 53-56. *)
Lemma invoke_url_not_str (model : string) (credentials : gmap string pyval)
    (t : string) (v : pyval) :
  credentials !! "server_url" = Some v -> truthy v = true ->
  (forall u, v <> PyStr u) -> model <> EmptyString ->
  _invoke model credentials [t] =
  ([], Raise (ExcFrom InvokeConnectionError (ExcRuntime TypeError))).
Proof.
  intros Hv Htr Hns Hm. unfold _invoke, dict_getitem. cbn [length Nat.eqb negb].
  rewrite Hv, bind_lift_Ok, Htr, (truthy_str model Hm).
  cbn [negb list_getitem_0]. rewrite bind_lift_Ok.
  destruct v; try reflexivity. exfalso. apply (Hns s). reflexivity.
Qed.


(** A lookup of lines 61-62 that fails is not caught by line 74. *)
Lemma error_response_lookup_fails (r : Response) (resp : pyval) (e : exc) :
  response_json (text r) = inr resp ->
  getitem resp "error" = Raise e \/
  (exists error, getitem resp "error" = Ok error /\
     (getitem error "code" = Raise e \/
      (exists code, getitem error "code" = Ok code) /\
      getitem error "message" = Raise e)) ->
  error_response r = raise e.
Proof.
  intros Hj [He | (error & He & [Hc | [(code & Hc) Hm]])];
    unfold error_response, json; rewrite Hj, !bind_lift_Ok, He.
  - rewrite bind_lift_Raise. apply try_except_unhandled.
    rewrite (getitem_Raise_not_decode _ _ _ He). reflexivity.
  - rewrite !bind_lift_Ok, Hc, bind_lift_Raise. apply try_except_unhandled.
    rewrite (getitem_Raise_not_decode _ _ _ Hc). reflexivity.
  - rewrite !bind_lift_Ok, Hc, !bind_lift_Ok, Hm, bind_lift_Raise.
    apply try_except_unhandled.
    rewrite (getitem_Raise_not_decode _ _ _ Hm). reflexivity.
Qed.

(** The comprehension of lines 88-90 on a list of objects whose [embedding]
    is a list of floats. *)
Lemma embedding_vectors_of_floats (xs : list pyval) (vs : list (list float)) :
  Forall2 (fun x v => getitem x "embedding" = Ok (PyList (map PyFloat v))) xs vs ->
  embedding_vectors (PyList xs) = ret vs.
Proof.
  intros H. unfold embedding_vectors. cbn [iter]. rewrite bind_lift_Ok.
  apply mapM_Forall2. induction H as [| x v xs vs Hx _ IH]; constructor.
  - rewrite Hx, bind_lift_Ok. cbn [iter]. rewrite bind_lift_Ok.
    rewrite (mapM_Ok _ (fun item => match item with
                                    | PyFloat g => g
                                    | _ => 0%float
                                    end)).
    + rewrite map_map. rewrite <- (map_id v) at 2. reflexivity.
    + intros item Hitem. apply in_map_iff in Hitem as (g & <- & _). reflexivity.
  - exact IH.
Qed.

(** What the comprehension of lines 88-90 raises, by class. *)
Lemma embedding_vectors_classes (data : pyval) (e : exc) :
  outcome (embedding_vectors data) = Raise e ->
  exc_class_of e = KeyError \/ exc_class_of e = TypeError \/
  exc_class_of e = ValueError \/ exc_class_of e = OverflowError.
Proof.
  unfold embedding_vectors. intros H.
  apply outcome_bind_Raise in H as [H | (xs & _ & H)].
  - rewrite outcome_lift in H. destruct data; simpl in H; try discriminate H;
      injection H as <-; right; left; reflexivity.
  - apply outcome_mapM_Raise in H as (x & _ & H).
    apply outcome_bind_Raise in H as [H | (embedding & _ & H)].
    + rewrite outcome_lift in H.
      destruct (getitem_Raise _ _ _ H) as [-> | ->]; [left | right; left]; reflexivity.
    + apply outcome_bind_Raise in H as [H | (items & _ & H)].
      * rewrite outcome_lift in H. destruct embedding; simpl in H; try discriminate H;
          injection H as <-; right; left; reflexivity.
      * apply outcome_mapM_Raise in H as (item & _ & H).
        rewrite outcome_lift in H. unfold py_float in H.
        destruct item; try (injection H as <-; right; left; reflexivity);
          try discriminate H.
        -- destruct (float_of_int z); [discriminate H |].
           injection H as <-. right. right. right. reflexivity.
        -- destruct (float_of_str s); [discriminate H |].
           injection H as <-. right. right. left. reflexivity.
Qed.




(** X1: when the transport raises on the request of a call that passed the
    checks, [_invoke] raises a Connection error that carries the transport's
    exception, and that request is the only one sent. *)
Theorem transport_failure_is_connection_error (model : string)
    (credentials : gmap string pyval) (t u : string) (e : exc) :
  credentials !! "server_url" = Some (PyStr u) -> u <> EmptyString ->
  model <> EmptyString ->
  post (posix_join u "embeddings") request_headers
       (dumps (request_data model t)) 10 = Raise e ->
  outcome (_invoke model credentials [t]) = Raise (ExcFrom InvokeConnectionError e) /\
  length (requests_sent (_invoke model credentials [t])) = 1%nat.
Proof.
  intros Hv Hu Hm Hpost.
  rewrite (invoke_unanswered model credentials t u e Hv Hu Hm Hpost).
  split; reflexivity.
Qed.

(** X2: a [server_url] that is truthy and no string (a number, a list) makes
    [_invoke] raise a Connection error that carries the [TypeError] of
    [join], and no request is sent. *)
Theorem non_string_url_is_connection_error (model : string)
    (credentials : gmap string pyval) (texts : list string) (v : pyval) :
  length texts = 1%nat ->
  credentials !! "server_url" = Some v -> truthy v = true ->
  (forall u, v <> PyStr u) -> model <> EmptyString ->
  requests_sent (_invoke model credentials texts) = [] /\
  outcome (_invoke model credentials texts) =
  Raise (ExcFrom InvokeConnectionError (ExcRuntime TypeError)).
Proof.
  intros Hlen Hv Htr Hns Hm. apply length_one in Hlen as [t ->].
  rewrite (invoke_url_not_str model credentials t v Hv Htr Hns Hm).
  split; reflexivity.
Qed.

(** X3: a response with a status other than 200 whose body is no JSON makes
    [_invoke] raise a Server-Unavailable error whose message ends with the raw
    response text. *)
Theorem error_body_not_json (model : string) (credentials : gmap string pyval)
    (t u : string) (r : Response) (msg : string) :
  credentials !! "server_url" = Some (PyStr u) -> u <> EmptyString ->
  model <> EmptyString -> server_answers u model t r ->
  status_code r <> 200 ->
  response_json (text r) = inl msg ->
  outcome (_invoke model credentials [t]) =
  Raise (Exc InvokeServerUnavailableError
           (PyStr ("Failed to convert response to json: " +:+
                   str_of_exc (Exc JSONDecodeError (PyStr msg)) +:+
                   " with text: " +:+ text r))).
Proof.
  intros Hv Hu Hm Ha Hs Hj.
  rewrite (invoke_answered model credentials t u r Hv Hu Hm Ha).
  rewrite (interpret_response_not_200 model credentials r _ Hs
             (error_response_undecodable r msg Hj)).
  reflexivity.
Qed.

(** X4: a response with a status other than 200 whose body is JSON without
    [error], or with an [error] without [code] or without [message], makes
    [_invoke] raise the [KeyError] or [TypeError] of the failed lookup: line 74
    catches the decoding error only. *)
Theorem error_body_without_fields (model : string) (credentials : gmap string pyval)
    (t u : string) (r : Response) (resp : pyval) (e : exc) :
  credentials !! "server_url" = Some (PyStr u) -> u <> EmptyString ->
  model <> EmptyString -> server_answers u model t r ->
  status_code r <> 200 ->
  response_json (text r) = inr resp ->
  getitem resp "error" = Raise e \/
  (exists error, getitem resp "error" = Ok error /\
     (getitem error "code" = Raise e \/
      (exists code, getitem error "code" = Ok code) /\
      getitem error "message" = Raise e)) ->
  outcome (_invoke model credentials [t]) = Raise e /\
  (exc_class_of e = KeyError \/ exc_class_of e = TypeError).
Proof.
  intros Hv Hu Hm Ha Hs Hj Hfail.
  rewrite (invoke_answered model credentials t u r Hv Hu Hm Ha).
  rewrite (interpret_response_not_200 model credentials r e Hs
             (error_response_lookup_fails r resp e Hj Hfail)).
  split; [reflexivity |].
  destruct Hfail as [He | (error & _ & [Hc | [_ Hmsg]])];
    match goal with
    | H : getitem _ _ = Raise e |- _ =>
        destruct (getitem_Raise _ _ _ H) as [-> | ->]; [left | right]; reflexivity
    end.
Qed.


(** X6: the result of a successful call carries the requested model, and a
    usage whose [tokens] and [total_tokens] are both the integer that the
    usage entity keeps of the [usage.total_tokens] of the response (the count
    itself when it is an int), whose prices are those the price lookup gave
    for the [usage.total_tokens] as input tokens, and whose latency is the
    clock minus [started_at]. *)
Theorem result_usage_follows_response (model : string)
    (credentials : gmap string pyval) (texts : list string)
    (res : TextEmbeddingResult.t Decimal) :
  outcome (_invoke model credentials texts) = Ok res ->
  TextEmbeddingResult.model res = model /\
  exists t u r resp usage tokens info count,
    texts = [t] /\ credentials !! "server_url" = Some (PyStr u) /\
    server_answers u model t r /\
    response_json (text r) = inr resp /\
    getitem resp "usage" = Ok usage /\
    getitem usage "total_tokens" = Ok tokens /\
    get_price model credentials INPUT tokens = Ok info /\
    as_int tokens = Ok count /\
    (forall z, tokens = PyInt z -> count = z) /\
    TextEmbeddingResult.usage res =
    {| EmbeddingUsage.tokens := PyInt count;
       EmbeddingUsage.total_tokens := PyInt count;
       EmbeddingUsage.unit_price := PriceInfo.unit_price info;
       EmbeddingUsage.price_unit := PriceInfo.unit info;
       EmbeddingUsage.total_price := PriceInfo.total_amount info;
       EmbeddingUsage.currency := PriceInfo.currency info;
       EmbeddingUsage.latency := PrimFloat.sub perf_counter started_at |}.
Proof.
  intros H.
  apply invoke_Ok_inv in H as (t & u & r & -> & Hv & Hu & Hm & Ha & Hs & H).
  rewrite (interpret_response_200 model credentials r Hs) in H.
  apply outcome_bind_Ok in H as (body & Hbody & H).
  apply read_body_Ok_inv in Hbody as (resp & Hj & Hd & Hus).
  apply outcome_bind_Ok in H as (tokens & Ht & H).
  apply outcome_bind_Ok in H as (usage & Husage & H).
  apply outcome_bind_Ok in H as (vectors & _ & H).
  unfold outcome, ret in H. cbn [snd] in H. injection H as <-.
  unfold _calc_response_usage in Husage.
  apply outcome_bind_Ok in Husage as (info & Hinfo & Husage).
  apply outcome_bind_Ok in Husage as (count & Hcount & Husage).
  unfold outcome, ret in Husage. cbn [snd] in Husage. injection Husage as <-.
  rewrite outcome_lift in Ht. rewrite outcome_lift in Hinfo.
  rewrite outcome_lift in Hcount.
  split; [reflexivity |].
  exists t, u, r, resp, (snd body), tokens, info, count.
  cbn [TextEmbeddingResult.usage]. repeat split; try assumption.
  intros z ->. cbn [as_int] in Hcount. injection Hcount as <-. reflexivity.
Qed.

(** X7: when the [data] of a readable 200 response is a list of objects
    whose [embedding] is a list of floats, whatever else the objects hold,
    the price lookup returns and the usage entity takes the
    [usage.total_tokens], [_invoke] returns exactly those vectors, in
    order. *)
Theorem vectors_returned_as_sent (model : string) (credentials : gmap string pyval)
    (t u : string) (r : Response) (resp usage tokens : pyval)
    (info : PriceInfo.t Decimal) (count : Z)
    (xs : list pyval) (vs : list (list float)) :
  credentials !! "server_url" = Some (PyStr u) -> u <> EmptyString ->
  model <> EmptyString -> server_answers u model t r ->
  status_code r = 200 ->
  response_json (text r) = inr resp ->
  getitem resp "data" = Ok (PyList xs) ->
  Forall2 (fun x v => getitem x "embedding" = Ok (PyList (map PyFloat v))) xs vs ->
  getitem resp "usage" = Ok usage ->
  getitem usage "total_tokens" = Ok tokens ->
  get_price model credentials INPUT tokens = Ok info ->
  as_int tokens = Ok count ->
  exists res, outcome (_invoke model credentials [t]) = Ok res /\
              TextEmbeddingResult.embeddings res = vs.
Proof.
  intros Hv Hu Hm Ha Hs Hj Hd Hxs Hus Ht Hprice Hcount.
  rewrite (invoke_answered model credentials t u r Hv Hu Hm Ha).
  rewrite (interpret_response_200 model credentials r Hs).
  rewrite (read_body_Ok r resp _ usage Hj Hd Hus), bind_ret.
  cbn [fst snd]. rewrite Ht, bind_lift_Ok. unfold _calc_response_usage.
  rewrite Hprice, bind_lift_Ok, Hcount, bind_lift_Ok, bind_ret.
  rewrite (embedding_vectors_of_floats xs vs Hxs), bind_ret.
  eexists. split; reflexivity.
Qed.

(** X8: when the body of a 200 response is readable, the price lookup
    returns and the usage entity takes the [usage.total_tokens], whatever the
    comprehension of lines 88-90 raises on a malformed [data] leaves [_invoke]
    as it is: a [KeyError], [TypeError], [ValueError] or [OverflowError], no
    Invoke error. *)
Theorem malformed_vectors_raise_raw (model : string) (credentials : gmap string pyval)
    (t u : string) (r : Response) (resp data usage tokens : pyval)
    (info : PriceInfo.t Decimal) (count : Z) (e : exc) :
  credentials !! "server_url" = Some (PyStr u) -> u <> EmptyString ->
  model <> EmptyString -> server_answers u model t r ->
  status_code r = 200 ->
  response_json (text r) = inr resp ->
  getitem resp "data" = Ok data ->
  getitem resp "usage" = Ok usage ->
  getitem usage "total_tokens" = Ok tokens ->
  get_price model credentials INPUT tokens = Ok info ->
  as_int tokens = Ok count ->
  outcome (embedding_vectors data) = Raise e ->
  outcome (_invoke model credentials [t]) = Raise e /\
  (exc_class_of e = KeyError \/ exc_class_of e = TypeError \/
   exc_class_of e = ValueError \/ exc_class_of e = OverflowError).
Proof.
  intros Hv Hu Hm Ha Hs Hj Hd Hus Ht Hprice Hcount He.
  split; [| exact (embedding_vectors_classes data e He)].
  rewrite (invoke_answered model credentials t u r Hv Hu Hm Ha).
  rewrite (interpret_response_200 model credentials r Hs).
  rewrite (read_body_Ok r resp data usage Hj Hd Hus), bind_ret.
  cbn [fst snd]. rewrite Ht, bind_lift_Ok. unfold _calc_response_usage.
  rewrite Hprice, bind_lift_Ok, Hcount, bind_lift_Ok, bind_ret.
  pose proof (embedding_vectors_quiet data) as Hq.
  destruct (embedding_vectors data) as [log res].
  unfold quiet, requests_sent, outcome in *. cbn [fst snd] in *. subst. reflexivity.
Qed.

(** X9: the price lookup runs before the vectors are converted: when it
    raises on the [usage.total_tokens] of a readable 200 response, [_invoke]
    raises the same exception, whatever [data] holds. *)
Theorem price_failure_comes_first (model : string) (credentials : gmap string pyval)
    (t u : string) (r : Response) (resp data usage tokens : pyval) (e : exc) :
  credentials !! "server_url" = Some (PyStr u) -> u <> EmptyString ->
  model <> EmptyString -> server_answers u model t r ->
  status_code r = 200 ->
  response_json (text r) = inr resp ->
  getitem resp "data" = Ok data ->
  getitem resp "usage" = Ok usage ->
  getitem usage "total_tokens" = Ok tokens ->
  get_price model credentials INPUT tokens = Raise e ->
  outcome (_invoke model credentials [t]) = Raise e.
Proof.
  intros Hv Hu Hm Ha Hs Hj Hd Hus Ht Hprice.
  rewrite (invoke_answered model credentials t u r Hv Hu Hm Ha).
  rewrite (interpret_response_200 model credentials r Hs).
  rewrite (read_body_Ok r resp data usage Hj Hd Hus), bind_ret.
  cbn [fst snd]. rewrite Ht, bind_lift_Ok. unfold _calc_response_usage.
  rewrite Hprice. reflexivity.
Qed.


(** [validate_credentials] on a probe that raised. *)
Lemma validate_credentials_of_raise (model : string) (credentials : gmap string pyval)
    (log : list http_request) (e : exc) :
  _invoke model credentials ["ping"] = (log, Raise e) ->
  validate_credentials model credentials =
  (log,
   if isinstance e InvokeAuthorizationError
   then Raise (Exc CredentialsValidateFailedError (PyStr "Invalid credentials"))
   else if isinstance e InvokeConnectionError
   then match str_of_invoke_error e with
        | Ok text => Raise (Exc CredentialsValidateFailedError
                              (PyStr ("Invalid credentials: " +:+ text)))
        | Raise e' => Raise e'
        end
   else Raise e).
Proof.
  intros H. unfold validate_credentials. rewrite H.
  unfold try_except, bind, raise, lift.
  destruct (isinstance e InvokeAuthorizationError); [rewrite app_nil_r; reflexivity |].
  destruct (isinstance e InvokeConnectionError); [| reflexivity].
  destruct (str_of_invoke_error e); cbn [app]; rewrite app_nil_r; reflexivity.
Qed.

(** X11: when the server answers the probe with status 401 and a JSON body
    that has [error.code], not equal to 500, and [error.message],
    [validate_credentials] fails with the CredentialsValidation error
    [Invalid credentials]; the server's message is dropped. *)
Theorem validate_credentials_unauthorized (model : string)
    (credentials : gmap string pyval) (u : string) (r : Response)
    (resp error code msg : pyval) :
  credentials !! "server_url" = Some (PyStr u) -> u <> EmptyString ->
  model <> EmptyString -> server_answers u model "ping" r ->
  status_code r = 401 ->
  response_json (text r) = inr resp ->
  getitem resp "error" = Ok error ->
  getitem error "code" = Ok code -> eq_500 code = false ->
  getitem error "message" = Ok msg ->
  outcome (validate_credentials model credentials) =
  Raise (Exc CredentialsValidateFailedError (PyStr "Invalid credentials")).
Proof.
  intros Hv Hu Hm Ha Hs Hj He Hc H500 Hmsg.
  assert (Hne : status_code r <> 200) by (rewrite Hs; discriminate).
  pose proof (invoke_answered model credentials "ping" u r Hv Hu Hm Ha) as Hprobe.
  rewrite (interpret_response_not_200 model credentials r _ Hne
             (error_response_dispatch r resp error code msg Hj He Hc Hmsg)) in Hprobe.
  rewrite H500, Hs in Hprobe.
  rewrite (validate_credentials_of_raise model credentials _ _ Hprobe).
  reflexivity.
Qed.

(** X12: when the transport raises on the probe, [validate_credentials]
    formats the Connection error of line 56 with [str]: when [str] returns a
    text, it fails with the CredentialsValidation error [Invalid credentials: ]
    followed by that text, and when [str] raises, with what [str] raises.  The
    probe is the one request sent. *)
Theorem validate_credentials_unreachable (model : string)
    (credentials : gmap string pyval) (u : string) (e : exc) :
  credentials !! "server_url" = Some (PyStr u) -> u <> EmptyString ->
  model <> EmptyString ->
  post (posix_join u "embeddings") request_headers
       (dumps (request_data model "ping")) 10 = Raise e ->
  outcome (validate_credentials model credentials) =
  match str_of_invoke_error (ExcFrom InvokeConnectionError e) with
  | Ok text => Raise (Exc CredentialsValidateFailedError
                        (PyStr ("Invalid credentials: " +:+ text)))
  | Raise e' => Raise e'
  end /\
  length (requests_sent (validate_credentials model credentials)) = 1%nat.
Proof.
  intros Hv Hu Hm Hp.
  rewrite (validate_credentials_of_raise model credentials _ _
             (invoke_unanswered model credentials "ping" u e Hv Hu Hm Hp)).
  split; reflexivity.
Qed.

(** X13: a server error on the probe is no validation result: when the
    status is not 200 and the body has [error.code] and [error.message], with
    a code equal to 500 or a status other than 401, [validate_credentials]
    raises the RateLimit, Server-Unavailable or generic Invoke error of
    [_invoke] unchanged. *)
Theorem validate_credentials_server_error (model : string)
    (credentials : gmap string pyval) (u : string) (r : Response)
    (resp error code msg : pyval) :
  credentials !! "server_url" = Some (PyStr u) -> u <> EmptyString ->
  model <> EmptyString -> server_answers u model "ping" r ->
  status_code r <> 200 ->
  response_json (text r) = inr resp ->
  getitem resp "error" = Ok error ->
  getitem error "code" = Ok code ->
  getitem error "message" = Ok msg ->
  eq_500 code = true \/ status_code r <> 401 ->
  let failure :=
    Exc (if eq_500 code then InvokeServerUnavailableError
         else if status_code r =? 429 then InvokeRateLimitError
         else if status_code r =? 500 then InvokeServerUnavailableError
         else InvokeError) msg in
  outcome (_invoke model credentials ["ping"]) = Raise failure /\
  outcome (validate_credentials model credentials) = Raise failure.
Proof.
  intros Hv Hu Hm Ha Hs Hj He Hc Hmsg Hcase failure. subst failure.
  pose proof (invoke_answered model credentials "ping" u r Hv Hu Hm Ha) as Hprobe.
  rewrite (interpret_response_not_200 model credentials r _ Hs
             (error_response_dispatch r resp error code msg Hj He Hc Hmsg)) in Hprobe.
  rewrite (validate_credentials_of_raise model credentials _ _ Hprobe), Hprobe.
  unfold outcome, raise. cbn [snd].
  destruct (eq_500 code); [split; reflexivity |].
  destruct Hcase as [| H401]; [discriminate |].
  apply Z.eqb_neq in H401. rewrite H401.
  destruct (status_code r =? 429); [split; reflexivity |].
  destruct (status_code r =? 500); split; reflexivity.
Qed.

(** X14: [validate_credentials] on credentials that do not pass the checks
    of [_invoke] sends nothing: without [server_url] it raises the [KeyError]
    of the lookup, with an empty [server_url] the CredentialsValidation error
    [server_url is required], and with an empty model name the
    CredentialsValidation error [model_name is required]. *)
Theorem validate_credentials_without_url (model : string)
    (credentials : gmap string pyval) :
  (credentials !! "server_url" = None ->
   validate_credentials model credentials =
   ([], Raise (Exc KeyError (PyStr "server_url")))) /\
  (forall v, credentials !! "server_url" = Some v -> truthy v = false ->
   validate_credentials model credentials =
   ([], Raise (Exc CredentialsValidateFailedError (PyStr "server_url is required")))) /\
  (forall v, credentials !! "server_url" = Some v -> truthy v = true ->
   model = EmptyString ->
   validate_credentials model credentials =
   ([], Raise (Exc CredentialsValidateFailedError (PyStr "model_name is required")))).
Proof.
  repeat split.
  - intros Hv.
    rewrite (validate_credentials_of_raise model credentials _ _
               (invoke_missing_url model credentials "ping" Hv)).
    reflexivity.
  - intros v Hv Htr.
    rewrite (validate_credentials_of_raise model credentials _ _
               (invoke_falsy_url model credentials "ping" v Hv Htr)).
    reflexivity.
  - intros v Hv Htr ->.
    rewrite (validate_credentials_of_raise EmptyString credentials _ _
               (invoke_empty_model credentials "ping" v Hv Htr)).
    reflexivity.
Qed.

(** X15: [validate_credentials] returns only when the server has answered
    the one request for the text [ping] with status 200. *)
Theorem validate_credentials_returns_after_200 (model : string)
    (credentials : gmap string pyval) :
  outcome (validate_credentials model credentials) = Ok tt ->
  exists u r,
    credentials !! "server_url" = Some (PyStr u) /\
    server_answers u model "ping" r /\ status_code r = 200 /\
    requests_sent (validate_credentials model credentials) =
    [{| method := POST; url := posix_join u "embeddings";
        headers := request_headers;
        data := dumps (request_data model "ping"); timeout := 10 |}].
Proof.
  intros H.
  destruct (_invoke model credentials ["ping"]) as [log [res | e]] eqn:Hprobe.
  - assert (Hok : outcome (_invoke model credentials ["ping"]) = Ok res)
      by (rewrite Hprobe; reflexivity).
    apply invoke_Ok_inv in Hok as (t & u & r & [= <-] & Hv & Hu & Hm & Ha & Hs & _).
    exists u, r. repeat split; try assumption.
    unfold validate_credentials.
    rewrite (invoke_answered model credentials "ping" u r Hv Hu Hm Ha) in Hprobe |- *.
    injection Hprobe as _ ->. reflexivity.
  - rewrite (validate_credentials_of_raise model credentials log e Hprobe) in H.
    unfold outcome in H. cbn [snd] in H.
    destruct (isinstance e InvokeAuthorizationError); [discriminate H |].
    destruct (isinstance e InvokeConnectionError); [| discriminate H].
    destruct (str_of_invoke_error e); discriminate H.
Qed.

End MoreClientProperties.

(** ** Token counting of the embedding client *)

Section CountingProperties.
Import Python LocalAITokens.
Variable _get_num_tokens_by_gpt2 : string -> result Z.

Local Abbreviation count_from := (count_from _get_num_tokens_by_gpt2).
Local Abbreviation get_num_tokens := (get_num_tokens _get_num_tokens_by_gpt2).

(** The loop from [num_tokens] is the loop from 0, shifted. *)
Lemma count_from_shift (num_tokens : Z) (texts : list string) :
  count_from num_tokens texts =
  match count_from 0 texts with
  | Ok n => Ok (num_tokens + n)
  | Raise e => Raise e
  end.
Proof.
  revert num_tokens. induction texts as [| text rest IH]; intros num_tokens; simpl.
  - f_equal. lia.
  - destruct (_get_num_tokens_by_gpt2 text) as [n | e]; [| reflexivity].
    rewrite (IH (num_tokens + n)), (IH (0 + n)).
    destruct (LocalAITokens.count_from _ 0 rest); [f_equal; lia | reflexivity].
Qed.

Lemma count_from_app (num_tokens : Z) (a b : list string) :
  count_from num_tokens (a ++ b) =
  match count_from num_tokens a with
  | Ok n => count_from n b
  | Raise e => Raise e
  end.
Proof.
  revert num_tokens. induction a as [| text rest IH]; intros num_tokens; simpl.
  - reflexivity.
  - destruct (_get_num_tokens_by_gpt2 text) as [n | e]; [apply IH | reflexivity].
Qed.

(** X16: counting is additive: when the counts of two lists of texts are
    [na] and [nb], the count of the two lists one after the other is
    [na + nb]. *)
Theorem get_num_tokens_app (model : string) (credentials : gmap string pyval)
    (a b : list string) (na nb : Z) :
  get_num_tokens model credentials a = Ok na ->
  get_num_tokens model credentials b = Ok nb ->
  get_num_tokens model credentials (a ++ b) = Ok (na + nb).
Proof.
  unfold LocalAITokens.get_num_tokens. intros Ha Hb.
  rewrite count_from_app, Ha, count_from_shift, Hb. reflexivity.
Qed.

(** X17: the count stops at the first text the tokenizer fails on: when
    the texts before it are counted and it raises, [get_num_tokens] raises the
    same exception, whatever follows. *)
Theorem get_num_tokens_first_failure (model : string)
    (credentials : gmap string pyval) (before after : list string)
    (text : string) (n : Z) (e : exc) :
  get_num_tokens model credentials before = Ok n ->
  _get_num_tokens_by_gpt2 text = Raise e ->
  get_num_tokens model credentials (before ++ text :: after) = Raise e.
Proof.
  unfold LocalAITokens.get_num_tokens. intros Hb He.
  rewrite count_from_app, Hb. simpl. rewrite He. reflexivity.
Qed.

(** X18: when the tokenizer counts every text of the list, the count of
    the list is the sum of the counts, so it is 0 for no text and does not
    depend on the order of the texts. *)
Theorem get_num_tokens_sum (model : string) (credentials : gmap string pyval)
    (texts : list string) (count : string -> Z) :
  (forall text, In text texts -> _get_num_tokens_by_gpt2 text = Ok (count text)) ->
  get_num_tokens model credentials texts = Ok (fold_right Z.add 0 (map count texts)) /\
  (forall texts', Permutation texts texts' ->
     get_num_tokens model credentials texts' =
     get_num_tokens model credentials texts).
Proof.
  assert (Hsum : forall l,
             (forall text, In text l -> _get_num_tokens_by_gpt2 text = Ok (count text)) ->
             get_num_tokens model credentials l =
             Ok (fold_right Z.add 0 (map count l))).
  { unfold LocalAITokens.get_num_tokens. induction l as [| text rest IH]; intros H.
    - reflexivity.
    - simpl. rewrite (H text (or_introl eq_refl)), count_from_shift, IH;
        [reflexivity |].
      intros t Ht. apply H. right. exact Ht. }
  intros H. split; [apply Hsum; exact H |].
  intros texts' Hperm. rewrite (Hsum texts H), (Hsum texts').
  - f_equal. symmetry. induction Hperm; simpl.
    + reflexivity.
    + rewrite IHHperm; [reflexivity |]. intros t Ht. apply H. right. exact Ht.
    + lia.
    + rewrite IHHperm1, IHHperm2; [reflexivity | | exact H].
      intros t Ht. apply H. apply Permutation_in with (l := l'); [| exact Ht].
      apply Permutation_sym. exact Hperm1.
  - intros t Ht. apply H. apply Permutation_in with (l := texts'); [| exact Ht].
    apply Permutation_sym. exact Hperm.
Qed.

End CountingProperties.

(** ** More on the tokenizer accessor *)

Section MoreTokenizerProperties.
Import Python Minimax.
Variable GPT2Tokenizer : Type.
Variable from_pretrained : string -> nat -> result GPT2Tokenizer.
Variable encode : GPT2Tokenizer -> string -> list Z.
Variable module_file : string.

Local Abbreviation get_encoder := (get_encoder GPT2Tokenizer from_pretrained module_file).
Local Abbreviation get_encoder_times :=
  (get_encoder_times GPT2Tokenizer from_pretrained module_file).
Local Abbreviation get_num_tokens :=
  (get_num_tokens GPT2Tokenizer from_pretrained encode module_file).
Local Abbreviation tokenizer_path :=
  (posix_join_all (posix_dirname module_file) [".."; "__base"; "tokenizers"; "gpt2"]).

(** X19: a load that fails is not remembered: a call of [get_encoder] that
    raises found no tokenizer, has called [from_pretrained] once and leaves
    the global unset, so the next call calls [from_pretrained] again and
    returns what that call gives. *)
Theorem failed_load_is_retried (p p1 : process GPT2Tokenizer) (e : exc) :
  get_encoder p = (Raise e, p1) ->
  tokenizer p = None /\ tokenizer p1 = None /\
  loaded p1 = (loaded p ++ [tokenizer_path])%list /\
  get_encoder p1 =
  match from_pretrained tokenizer_path (S (length (loaded p))) with
  | Ok t => (Ok t, {| tokenizer := Some t;
                      loaded := (loaded p1 ++ [tokenizer_path])%list |})
  | Raise e' => (Raise e', {| tokenizer := None;
                              loaded := (loaded p1 ++ [tokenizer_path])%list |})
  end.
Proof.
  unfold Minimax.get_encoder at 1. destruct (tokenizer p) as [t0 |] eqn:Hp;
    [discriminate |].
  destruct (from_pretrained _ _) as [t1 | e1]; [discriminate |].
  intros [= <- <-]. repeat split.
  unfold Minimax.get_encoder. cbn [tokenizer loaded].
  rewrite length_app. cbn [length]. rewrite Nat.add_1_r. reflexivity.
Qed.

(** In a run of calls, a call that returned has set the global for good. *)
Lemma get_encoder_times_sets (k : nat) (p : process GPT2Tokenizer) (t : GPT2Tokenizer) :
  In (Ok t) (fst (get_encoder_times k p)) ->
  tokenizer (snd (get_encoder_times k p)) = Some t.
Proof.
  revert p. induction k as [| k IH]; intros p; simpl.
  - intros [].
  - destruct (get_encoder p) as [r p'] eqn:Hfirst.
    destruct (get_encoder_times k p') as [rs p''] eqn:Hrest. simpl.
    intros [-> | Hin].
    + pose proof (get_encoder_sets _ _ _ p p' t Hfirst) as Hset.
      rewrite (get_encoder_times_cached _ _ _ k p' t Hset) in Hrest.
      injection Hrest as _ <-. exact Hset.
    + specialize (IH p'). rewrite Hrest in IH. apply IH. exact Hin.
Qed.

(** X20: in any run of calls of [get_encoder], from any state and with loads
    that may fail, all the calls that return give the same instance, and it
    is the one the global holds at the end. *)
Theorem successful_calls_share_instance (k : nat) (p : process GPT2Tokenizer)
    (t1 t2 : GPT2Tokenizer) :
  In (Ok t1) (fst (get_encoder_times k p)) ->
  In (Ok t2) (fst (get_encoder_times k p)) ->
  t1 = t2 /\ tokenizer (snd (get_encoder_times k p)) = Some t1.
Proof.
  intros H1 H2. pose proof (get_encoder_times_sets k p t1 H1) as Hs1.
  pose proof (get_encoder_times_sets k p t2 H2) as Hs2.
  split; [congruence | exact Hs1].
Qed.

(** X21: a call of [get_num_tokens] that returns gives the number of tokens
    the cached tokenizer encodes the text to, which is not negative, and
    every later call counts with that tokenizer and loads nothing. *)
Theorem get_num_tokens_counts (text : string) (p p1 : process GPT2Tokenizer) (n : Z) :
  get_num_tokens text p = (Ok n, p1) ->
  exists t, tokenizer p1 = Some t /\
            n = Z.of_nat (length (encode t text)) /\ 0 <= n /\
            forall text', get_num_tokens text' p1 =
                          (Ok (Z.of_nat (length (encode t text'))), p1).
Proof.
  unfold Minimax.get_num_tokens, Minimax._get_num_tokens_by_gpt2.
  destruct (get_encoder p) as [[t | e] p'] eqn:Hfirst; [| discriminate].
  intros [= <- <-]. exists t.
  pose proof (get_encoder_sets _ _ _ p p' t Hfirst) as Hset.
  repeat split; [exact Hset | lia |].
  intros text'. rewrite (get_encoder_cached _ _ _ p' t Hset). reflexivity.
Qed.

Lemma list_ascii_of_string_app (a b : string) :
  list_ascii_of_string (a +:+ b) =
  (list_ascii_of_string a ++ list_ascii_of_string b)%list.
Proof.
  induction a as [| c a IH]; [reflexivity |].
  change (String c a +:+ b) with (String c (a +:+ b)).
  cbn [list_ascii_of_string app]. rewrite IH. reflexivity.
Qed.

Lemma string_app_assoc (a b c : string) : (a +:+ b) +:+ c = a +:+ (b +:+ c).
Proof.
  induction a as [| x a IH]; [reflexivity |].
  change (String x ((a +:+ b) +:+ c) = String x (a +:+ (b +:+ c))).
  rewrite IH. reflexivity.
Qed.

Lemma dropwhile_app {A : Type} (f : A -> bool) (l1 l2 : list A) (x : A) :
  forallb f l1 = true -> f x = false -> dropwhile f (l1 ++ x :: l2) = x :: l2.
Proof.
  intros Hall Hx. induction l1 as [| y l1 IH]; simpl in *.
  - rewrite Hx. reflexivity.
  - apply andb_true_iff in Hall as [Hy Hall]. rewrite Hy. apply IH. exact Hall.
Qed.

Lemma forallb_rev_eq {A : Type} (f : A -> bool) (l : list A) :
  forallb f (rev l) = forallb f l.
Proof.
  induction l as [| x l IH]; [reflexivity |].
  cbn [rev forallb]. rewrite forallb_app, IH. cbn [forallb].
  rewrite andb_true_r. apply andb_comm.
Qed.

Lemma ends_with_slash_app (a b : string) :
  b <> EmptyString -> ends_with_slash (a +:+ b) = ends_with_slash b.
Proof.
  intros Hb. unfold ends_with_slash. rewrite list_ascii_of_string_app, rev_app_distr.
  destruct (rev (list_ascii_of_string b)) as [| c rest] eqn:Hrev; [| reflexivity].
  exfalso. apply Hb. apply (f_equal (@rev ascii)) in Hrev. rewrite rev_involutive in Hrev.
  destruct b; [reflexivity | discriminate Hrev].
Qed.

Lemma app_not_empty (a b : string) : b <> EmptyString -> a +:+ b <> EmptyString.
Proof.
  destruct a as [| c a]; [intros H; exact H |].
  intros _. change (String c (a +:+ b) <> EmptyString). discriminate.
Qed.

(** [join] onto a path that is not empty and ends with no slash. *)
Lemma posix_join_plain (a b : string) :
  a <> EmptyString -> ends_with_slash a = false -> starts_with_slash b = false ->
  posix_join a b = a +:+ "/" +:+ b.
Proof.
  intros Ha He Hs. unfold posix_join. rewrite Hs, He.
  apply String.eqb_neq in Ha. rewrite Ha. reflexivity.
Qed.

(** [dirname] of a file in a directory. *)
Lemma posix_dirname_file (dir name : string) :
  dir <> EmptyString -> ends_with_slash dir = false ->
  forallb (fun c => negb (is_slash c)) (list_ascii_of_string name) = true ->
  posix_dirname (dir +:+ "/" +:+ name) = dir.
Proof.
  intros Hdir Hend Hname. unfold posix_dirname.
  rewrite !list_ascii_of_string_app. cbn [list_ascii_of_string app].
  rewrite rev_app_distr. cbn [rev]. rewrite <- app_assoc. cbn [app].
  rewrite dropwhile_app; [| rewrite forallb_rev_eq; exact Hname | reflexivity].
  cbn [rev]. rewrite rev_involutive.
  unfold ends_with_slash in Hend.
  destruct (rev (list_ascii_of_string dir)) as [| c rest] eqn:Hrev.
  { exfalso. apply Hdir. apply (f_equal (@rev ascii)) in Hrev.
    rewrite rev_involutive in Hrev. destruct dir; [reflexivity | discriminate Hrev]. }
  assert (Hl : list_ascii_of_string dir = (rev rest ++ [c])%list).
  { apply (f_equal (@rev ascii)) in Hrev. rewrite rev_involutive in Hrev. exact Hrev. }
  fold (is_slash c) in Hend.
  replace (forallb is_slash (list_ascii_of_string dir ++ ["/"%char])) with false.
  - rewrite rev_app_distr. cbn [rev app dropwhile].
    change (is_slash "/") with true. cbv iota.
    rewrite Hrev. cbn [dropwhile]. rewrite Hend.
    rewrite <- Hrev, rev_involutive. apply string_of_list_ascii_of_string.
  - symmetry. rewrite Hl, !forallb_app. cbn [forallb]. rewrite Hend.
    rewrite andb_false_r. reflexivity.
Qed.

(** X22: when the module file is the file [name] of a directory [dir] that
    is not empty and ends with no slash, a call of [get_encoder] that finds no
    tokenizer loads from [dir/../__base/tokenizers/gpt2] and from nowhere
    else. *)
Theorem tokenizer_loaded_from_base (dir name : string) (p : process GPT2Tokenizer) :
  module_file = dir +:+ "/" +:+ name ->
  dir <> EmptyString -> ends_with_slash dir = false ->
  forallb (fun c => negb (is_slash c)) (list_ascii_of_string name) = true ->
  tokenizer p = None ->
  loaded (snd (get_encoder p)) =
  (loaded p ++ [dir +:+ "/../__base/tokenizers/gpt2"])%list.
Proof.
  intros Hfile Hdir Hend Hname Hnone.
  assert (Hpath : tokenizer_path = dir +:+ "/../__base/tokenizers/gpt2").
  { rewrite Hfile, (posix_dirname_file dir name Hdir Hend Hname).
    unfold posix_join_all. cbn [fold_left].
    rewrite (posix_join_plain dir ".." Hdir Hend eq_refl).
    rewrite (posix_join_plain _ "__base");
      [| apply app_not_empty; discriminate
       | rewrite ends_with_slash_app by discriminate; reflexivity
       | reflexivity].
    rewrite (posix_join_plain _ "tokenizers");
      [| apply app_not_empty; discriminate
       | rewrite ends_with_slash_app by discriminate; reflexivity
       | reflexivity].
    rewrite (posix_join_plain _ "gpt2");
      [| apply app_not_empty; discriminate
       | rewrite ends_with_slash_app by discriminate; reflexivity
       | reflexivity].
    rewrite !string_app_assoc. reflexivity. }
  unfold Minimax.get_encoder. rewrite Hnone.
  destruct (from_pretrained _ _) as [t | e]; cbn [snd loaded]; rewrite Hpath;
    reflexivity.
Qed.

End MoreTokenizerProperties.

(** ** The further properties on the concrete runtimes *)

Section MoreInstances.
Import Python LocalAI Scenario Cases.

Lemma numeric_url_url : numeric_url !! "server_url" = Some (PyInt 8080).
Proof. vm_compute. reflexivity. Qed.

(** A refused connection. *)
Lemma refused_connection_is_connection_error :
  outcome (@_invoke unreachable "m" localhost ["hi"]) =
  Raise (ExcFrom InvokeConnectionError
           (Exc (OtherException "ConnectionError") (PyStr "Connection refused"))) /\
  length (requests_sent (@_invoke unreachable "m" localhost ["hi"])) = 1%nat.
Proof.
  apply (@transport_failure_is_connection_error unreachable "m" localhost "hi"
           "http://localhost:8080");
    [exact localhost_url | discriminate | discriminate | reflexivity].
Defined.

(** The number 8080 as [server_url]. *)
Lemma numeric_url_is_connection_error :
  requests_sent (@_invoke unreachable "m" numeric_url ["hi"]) = [] /\
  outcome (@_invoke unreachable "m" numeric_url ["hi"]) =
  Raise (ExcFrom InvokeConnectionError (ExcRuntime TypeError)).
Proof.
  apply (@non_string_url_is_connection_error unreachable "m" numeric_url ["hi"]
           (PyInt 8080));
    [reflexivity | exact numeric_url_url | reflexivity
     | intros u; discriminate | discriminate].
Defined.

(** Status 503 with the body [oops]. *)
Lemma gateway_page_is_server_unavailable :
  outcome (@_invoke (answering 503 "oops") "m" localhost ["hi"]) =
  Raise (Exc InvokeServerUnavailableError
           (PyStr ("Failed to convert response to json: " +:+
                   "Expecting value: line 1 column 1 (char 0)" +:+
                   " with text: " +:+ "oops"))).
Proof.
  refine (@error_body_not_json (answering 503 "oops") "m" localhost "hi"
            "http://localhost:8080" {| status_code := 503; text := "oops" |}
            "Expecting value: line 1 column 1 (char 0)"
            localhost_url _ _ _ _ _);
    try reflexivity; try discriminate.
Defined.

(** Status 503 with [{"usage":{"total_tokens":5}}]: no [error]. *)
Lemma error_body_without_error_key :
  outcome (@_invoke (answering 503 body_no_data) "m" localhost ["hi"]) =
  Raise (Exc KeyError (PyStr "error")) /\
  (exc_class_of (Exc KeyError (PyStr "error")) = KeyError \/
   exc_class_of (Exc KeyError (PyStr "error")) = TypeError).
Proof.
  refine (@error_body_without_fields (answering 503 body_no_data) "m" localhost "hi"
            "http://localhost:8080" {| status_code := 503; text := body_no_data |}
            value_no_data (Exc KeyError (PyStr "error"))
            localhost_url _ _ _ _ _ _);
    try reflexivity; try discriminate.
  left. reflexivity.
Defined.


(** The usage of the result for [body_one_vector]. *)
Lemma one_vector_usage :
  TextEmbeddingResult.model result_one_vector = "m" /\
  exists t u r resp usage tokens info count,
    ["hi"] = [t] /\ localhost !! "server_url" = Some (PyStr u) /\
    server_answers (rt := answering 200 body_one_vector) u "m" t r /\
    response_json (Runtime := answering 200 body_one_vector) (text r) = inr resp /\
    getitem resp "usage" = Ok usage /\
    getitem usage "total_tokens" = Ok tokens /\
    get_price (Runtime := answering 200 body_one_vector) "m" localhost INPUT tokens =
    Ok info /\
    as_int (rt := answering 200 body_one_vector) tokens = Ok count /\
    (forall z, tokens = PyInt z -> count = z) /\
    TextEmbeddingResult.usage result_one_vector =
    {| EmbeddingUsage.tokens := PyInt count;
       EmbeddingUsage.total_tokens := PyInt count;
       EmbeddingUsage.unit_price := PriceInfo.unit_price info;
       EmbeddingUsage.price_unit := PriceInfo.unit info;
       EmbeddingUsage.total_price := PriceInfo.total_amount info;
       EmbeddingUsage.currency := PriceInfo.currency info;
       EmbeddingUsage.latency :=
         PrimFloat.sub (perf_counter (Runtime := answering 200 body_one_vector))
                       (started_at (Runtime := answering 200 body_one_vector)) |}.
Proof.
  apply (@result_usage_follows_response (answering 200 body_one_vector)
           "m" localhost ["hi"] result_one_vector).
  vm_compute. reflexivity.
Defined.

(** The vector of [body_indexed], whose entry has an [index] too. *)
Lemma two_vectors_returned_as_sent :
  exists res,
    outcome (@_invoke (replying 200 body_indexed) "m" localhost ["hi"]) = Ok res /\
    TextEmbeddingResult.embeddings res = [[0.1%float; 0.2%float]].
Proof.
  refine (@vectors_returned_as_sent (replying 200 body_indexed) "m" localhost "hi"
            "http://localhost:8080" {| status_code := 200; text := body_indexed |}
            value_indexed (PyDict [("total_tokens", PyInt 5)]) (PyInt 5)
            zero_price 5
            [PyDict [("index", PyInt 0);
                     ("embedding", PyList [PyFloat 0.1; PyFloat 0.2])]]
            [[0.1%float; 0.2%float]]
            localhost_url _ _ _ _ _ _ _ _ _ _ _);
    try reflexivity; try discriminate.
  repeat constructor.
Defined.

(** [{"data":[{}],"usage":{"total_tokens":5}}]: an entry without
    [embedding]. *)
Lemma entry_without_embedding_is_key_error :
  outcome (@_invoke (replying 200 body_no_embedding) "m" localhost ["hi"]) =
  Raise (Exc KeyError (PyStr "embedding")) /\
  (exc_class_of (Exc KeyError (PyStr "embedding")) = KeyError \/
   exc_class_of (Exc KeyError (PyStr "embedding")) = TypeError \/
   exc_class_of (Exc KeyError (PyStr "embedding")) = ValueError \/
   exc_class_of (Exc KeyError (PyStr "embedding")) = OverflowError).
Proof.
  refine (@malformed_vectors_raise_raw (replying 200 body_no_embedding) "m" localhost
            "hi" "http://localhost:8080"
            {| status_code := 200; text := body_no_embedding |}
            value_no_embedding (PyList [PyDict []])
            (PyDict [("total_tokens", PyInt 5)]) (PyInt 5)
            zero_price 5 (Exc KeyError (PyStr "embedding"))
            localhost_url _ _ _ _ _ _ _ _ _ _ _);
    try reflexivity; try discriminate.
Defined.

(** [{"data":7,"usage":{"total_tokens":5}}] with a failing price lookup. *)
Lemma price_failure_before_bad_data :
  outcome (@_invoke (unpriced 200 body_data_number) "m" localhost ["hi"]) =
  Raise (Exc (OtherException "ModelNotFound") (PyStr "no schema")).
Proof.
  refine (@price_failure_comes_first (unpriced 200 body_data_number) "m" localhost
            "hi" "http://localhost:8080"
            {| status_code := 200; text := body_data_number |}
            value_data_number (PyInt 7)
            (PyDict [("total_tokens", PyInt 5)]) (PyInt 5)
            (Exc (OtherException "ModelNotFound") (PyStr "no schema"))
            localhost_url _ _ _ _ _ _ _ _ _);
    try reflexivity; try discriminate.
Defined.


(** The probe answered 401. *)
Lemma probe_unauthorized :
  outcome (@validate_credentials (answering 401 body_bad_key) "m" localhost) =
  Raise (Exc CredentialsValidateFailedError (PyStr "Invalid credentials")).
Proof.
  refine (@validate_credentials_unauthorized (answering 401 body_bad_key) "m" localhost
            "http://localhost:8080" {| status_code := 401; text := body_bad_key |}
            value_bad_key
            (PyDict [("code", PyInt 401); ("message", PyStr "bad key")])
            (PyInt 401) (PyStr "bad key")
            localhost_url _ _ _ _ _ _ _ _ _);
    try reflexivity; try discriminate.
Defined.

(** The probe not answered, with the [__str__] of the Invoke errors. *)
Lemma probe_unreachable :
  outcome (@validate_credentials unreachable "m" localhost) =
  match invoke_error_str
          (ExcFrom InvokeConnectionError
             (Exc (OtherException "ConnectionError") (PyStr "Connection refused"))) with
  | Ok text => Raise (Exc CredentialsValidateFailedError
                        (PyStr ("Invalid credentials: " +:+ text)))
  | Raise e' => Raise e'
  end /\
  length (requests_sent (@validate_credentials unreachable "m" localhost)) = 1%nat.
Proof.
  refine (@validate_credentials_unreachable unreachable "m" localhost
            "http://localhost:8080"
            (Exc (OtherException "ConnectionError") (PyStr "Connection refused"))
            localhost_url _ _ _);
    try reflexivity; try discriminate.
Defined.

(** The probe answered 429. *)
Lemma probe_rate_limited :
  outcome (@_invoke (answering 429 body_bad_key) "m" localhost ["ping"]) =
  Raise (Exc InvokeRateLimitError (PyStr "bad key")) /\
  outcome (@validate_credentials (answering 429 body_bad_key) "m" localhost) =
  Raise (Exc InvokeRateLimitError (PyStr "bad key")).
Proof.
  refine (@validate_credentials_server_error (answering 429 body_bad_key) "m" localhost
            "http://localhost:8080" {| status_code := 429; text := body_bad_key |}
            value_bad_key
            (PyDict [("code", PyInt 401); ("message", PyStr "bad key")])
            (PyInt 401) (PyStr "bad key")
            localhost_url _ _ _ _ _ _ _ _ _);
    try reflexivity; try discriminate.
  right. discriminate.
Defined.

(** Validation without [server_url]. *)
Lemma validation_without_url_is_key_error :
  @validate_credentials unreachable "m" no_url =
  ([], Raise (Exc KeyError (PyStr "server_url"))).
Proof.
  apply (proj1 (@validate_credentials_without_url unreachable "m" no_url)).
  exact no_url_url.
Defined.

(** Validation against a server that answers the probe. *)
Lemma validation_passes_after_200 :
  exists u r,
    localhost !! "server_url" = Some (PyStr u) /\
    server_answers (rt := answering 200 body_one_vector) u "m" "ping" r /\
    status_code r = 200 /\
    requests_sent (@validate_credentials (answering 200 body_one_vector) "m" localhost) =
    [{| method := POST; url := posix_join u "embeddings";
        headers := request_headers;
        data := encode (request_data "m" "ping"); timeout := 10 |}].
Proof.
  apply (@validate_credentials_returns_after_200 (answering 200 body_one_vector)
           "m" localhost).
  vm_compute. reflexivity.
Defined.

(** Two texts and three texts. *)
Lemma five_texts_counted :
  LocalAITokens.get_num_tokens by_characters "m" localhost
    (["ab"; "cde"] ++ ["f"; "gh"; "i"]) = Ok (5 + 4).
Proof.
  apply (@get_num_tokens_app by_characters "m" localhost
           ["ab"; "cde"] ["f"; "gh"; "i"] 5 4); reflexivity.
Defined.

(** The text [boom] between two texts. *)
Lemma count_stops_at_boom :
  LocalAITokens.get_num_tokens by_characters "m" localhost
    (["ab"] ++ "boom" :: ["cde"]) =
  Raise (Exc (OtherException "TokenizerError") (PyStr "boom")).
Proof.
  apply (@get_num_tokens_first_failure by_characters "m" localhost
           ["ab"] ["cde"] "boom" 2); reflexivity.
Defined.

(** The count of [ab] and [cde] by characters. *)
Lemma two_texts_sum :
  LocalAITokens.get_num_tokens by_characters "m" localhost ["ab"; "cde"] =
  Ok (fold_right Z.add 0 (map (fun t => Z.of_nat (String.length t)) ["ab"; "cde"])) /\
  (forall texts', Permutation ["ab"; "cde"] texts' ->
     LocalAITokens.get_num_tokens by_characters "m" localhost texts' =
     LocalAITokens.get_num_tokens by_characters "m" localhost ["ab"; "cde"]).
Proof.
  apply (@get_num_tokens_sum by_characters "m" localhost ["ab"; "cde"]
           (fun t => Z.of_nat (String.length t))).
  intros text [<- | [<- | []]]; reflexivity.
Defined.

(** A first load that fails, with a loader whose second call returns. *)
Lemma second_call_loads_again :
  Minimax.tokenizer (@Minimax.at_import nat) = None /\
  Minimax.tokenizer after_failed_load = None /\
  Minimax.loaded after_failed_load =
  (Minimax.loaded (@Minimax.at_import nat) ++
   [posix_join_all (posix_dirname tokenizer_py)
      [".."; "__base"; "tokenizers"; "gpt2"]])%list /\
  Minimax.get_encoder nat second_try tokenizer_py after_failed_load =
  match second_try (posix_join_all (posix_dirname tokenizer_py)
                      [".."; "__base"; "tokenizers"; "gpt2"])
                   (S (length (Minimax.loaded (@Minimax.at_import nat)))) with
  | Ok t =>
      (Ok t, {| Minimax.tokenizer := Some t;
                Minimax.loaded :=
                  (Minimax.loaded after_failed_load ++
                   [posix_join_all (posix_dirname tokenizer_py)
                      [".."; "__base"; "tokenizers"; "gpt2"]])%list |})
  | Raise e' =>
      (Raise e', {| Minimax.tokenizer := None;
                    Minimax.loaded :=
                      (Minimax.loaded after_failed_load ++
                       [posix_join_all (posix_dirname tokenizer_py)
                          [".."; "__base"; "tokenizers"; "gpt2"]])%list |})
  end.
Proof.
  apply (@failed_load_is_retried nat second_try tokenizer_py Minimax.at_import
           after_failed_load (Exc (OtherException "OSError") (PyStr gpt2_path))).
  vm_compute. reflexivity.
Defined.

(** Three calls, the first of which fails to load. *)
Lemma three_calls_one_instance :
  1%nat = 1%nat /\
  Minimax.tokenizer
    (snd (Minimax.get_encoder_times nat second_try tokenizer_py 3 Minimax.at_import)) =
  Some 1%nat.
Proof.
  apply (@successful_calls_share_instance nat second_try tokenizer_py 3
           Minimax.at_import 1%nat 1%nat);
    vm_compute; right; left; reflexivity.
Defined.

(** The count of [hello] with one token per character. *)
Lemma hello_counted :
  exists t, Minimax.tokenizer after_first_call = Some t /\
            5 = Z.of_nat (length (codes t "hello")) /\ 0 <= 5 /\
            forall text',
              Minimax.get_num_tokens nat fresh_tokenizer codes tokenizer_py text'
                after_first_call =
              (Ok (Z.of_nat (length (codes t text'))), after_first_call).
Proof.
  apply (@get_num_tokens_counts nat fresh_tokenizer codes tokenizer_py "hello"
           Minimax.at_import after_first_call 5).
  vm_compute. reflexivity.
Defined.

(** The load path for the module file [tokenizer_py]. *)
Lemma tokenizer_py_loads_from_base :
  Minimax.loaded
    (snd (Minimax.get_encoder nat fresh_tokenizer tokenizer_py Minimax.at_import)) =
  (Minimax.loaded (@Minimax.at_import nat) ++
   ["/app/api/core/model_runtime/model_providers/minimax" +:+
    "/../__base/tokenizers/gpt2"])%list.
Proof.
  apply (@tokenizer_loaded_from_base nat fresh_tokenizer tokenizer_py
           "/app/api/core/model_runtime/model_providers/minimax" "tokenizer.py"
           Minimax.at_import); reflexivity || discriminate.
Defined.

End MoreInstances.
